(** * Mataresit API client (docs/examples/python/basic_usage.py)

    A shallow embedding of the example client: the request executor
    [MataresitAPI._request], the client operations built on it, and the
    three loops of [AdvancedMataresitAPI] (retry with backoff, polling for
    processing, chunked upload).

    Python values are modelled by [json]; a call either returns a value or
    raises, and it acts on a [World] holding the wall clock, the remote
    service and a log of what the client did (requests sent, sleeps).
    [print] calls write to stdout only and are left out. *)

From Stdlib Require Import ZArith QArith List String Bool Lia.
Import ListNotations.
Local Open Scope string_scope.
Local Open Scope Z_scope.

(** ** Python values *)

(** What [response.json()] produces, and what the client builds from it.
    [None] is [JNull]; a dict keeps its insertion order. *)
#[local] Set Warnings "-register-all".
Inductive json : Type :=
| JNull
| JBool (b : bool)
| JInt (n : Z)
| JFloat (q : Q)
| JStr (s : string)
| JArr (items : list json)
| JObj (fields : list (string * json)).

Module Py.

(** [d.get(key)] on the fields of a dict, [None] when absent. *)
Fixpoint lookup (key : string) (fields : list (string * json)) : option json :=
  match fields with
  | [] => None
  | (k, v) :: rest => if String.eqb k key then Some v else lookup key rest
  end.

(** [d[key] = v]: replaces in place, or appends a new key. *)
Fixpoint set (key : string) (v : json) (fields : list (string * json))
  : list (string * json) :=
  match fields with
  | [] => [(key, v)]
  | (k, v0) :: rest =>
      if String.eqb k key then (k, v) :: rest else (k, v0) :: set key v rest
  end.

(** [d.update(other)]. *)
Definition update (d other : list (string * json)) : list (string * json) :=
  fold_left (fun acc kv => set (fst kv) (snd kv) acc) other d.

(** [x == s] for a string literal [s]. *)
Definition eq_str (x : json) (s : string) : bool :=
  match x with
  | JStr t => String.eqb t s
  | _ => false
  end.

(** Truth value of an [Optional[str]]: [None] and the empty string are
    false. *)
Definition truthy (o : option string) : bool :=
  match o with
  | Some s => negb (String.eqb s "")
  | None => false
  end.

(** The one-character strings a [str] iterates over. *)
Fixpoint chars (s : string) : list json :=
  match s with
  | EmptyString => []
  | String c rest => JStr (String c EmptyString) :: chars rest
  end.

(** [range(start, stop)]. *)
Definition range (start stop : Z) : list Z :=
  map (fun k => start + Z.of_nat k) (seq 0 (Z.to_nat (stop - start))).

(** [range(start, stop, step)] for a positive [step]. *)
Definition range_step (start stop step : Z) : list Z :=
  map (fun k => start + Z.of_nat k * step)
      (seq 0 (Z.to_nat ((stop - start + step - 1) / step))).

(** [xs[i:j]] for [0 <= i <= j]. *)
Definition slice {A : Type} (xs : list A) (i j : Z) : list A :=
  firstn (Z.to_nat (j - i)) (skipn (Z.to_nat i) xs).

End Py.

(** ** Exceptions and results *)

(** [class MataresitAPIError(Exception)]: [status_code] and [error_code]
    default to [None]. *)
Record MataresitAPIError : Type := mkAPIError {
  message : json;
  status_code : option Z;
  error_code : json
}.

(** [MataresitAPIError(msg)] with the two defaults. *)
Definition api_error (msg : string) : MataresitAPIError :=
  mkAPIError (JStr msg) None JNull.

(** What a call can raise: the client's own error, or a builtin exception
    of the interpreter, named by its class. *)
Inductive exn : Type :=
| APIError (e : MataresitAPIError)
| Builtin (cls : string).

Inductive result (A : Type) : Type :=
| Ok (a : A)
| Raise (e : exn).
Arguments Ok {A} a.
Arguments Raise {A} e.

(** ** The world outside the client *)

(** Keyword arguments of [session.request]: none, [params=...] or
    [json=...]. *)
Inductive Kwargs : Type :=
| NoKwargs
| Params (p : list (string * json))
| Json (body : json).

Record Request : Type := mkRequest {
  req_method : string;
  req_url : string;
  req_headers : list (string * string);
  req_kwargs : Kwargs
}.

(** Outcome of [response.json()]: the parsed body, or the
    [requests.exceptions.JSONDecodeError] (a [RequestException]) that the
    call raises on a body that is not JSON. *)
Inductive Body : Type :=
| Parsed (data : json)
| Unparsable (why : string).

(** Outcome of [session.request]: a [requests.RequestException] (connection
    error, timeout) carrying [str(e)], or a response. *)
Inductive Transport : Type :=
| RequestException (why : string)
| Response (status : Z) (body : Body).

(** One HTTP round trip: how long it blocks (whole seconds) and how it
    ends. *)
Record Exchange : Type := mkExchange {
  latency : nat;
  reply : Transport
}.

Inductive Event : Type :=
| Sent (r : Request)
| Slept (seconds : Z).

(** [clock] is [time.time()]; [remote n] is the [n]-th exchange of the
    session, [sent] counts the exchanges so far; [log] lists what the
    client did, oldest first. *)
Record World : Type := mkWorld {
  clock : Z;
  remote : nat -> Exchange;
  sent : nat;
  log : list Event
}.

(** A call: runs in a world, returns or raises, and leaves a world. The
    effects of a call that raises stay. *)
Definition M (A : Type) : Type := World -> result A * World.

Definition ret {A : Type} (a : A) : M A := fun w => (Ok a, w).

Definition raise {A : Type} (e : exn) : M A := fun w => (Raise e, w).

Definition bind {A B : Type} (c : M A) (k : A -> M B) : M B :=
  fun w =>
    match c w with
    | (Ok a, w') => k a w'
    | (Raise e, w') => (Raise e, w')
    end.

(** [try: c  except MataresitAPIError as e: handler(e)]; a builtin
    exception passes through. *)
Definition try_except {A : Type} (c : M A) (handler : MataresitAPIError -> M A)
  : M A :=
  fun w =>
    match c w with
    | (Raise (APIError e), w') => handler e w'
    | other => other
    end.

(** Lifts a pure computation that may raise. *)
Definition lift {A : Type} (r : result A) : M A := fun w => (r, w).

Declare Scope py_scope.
Delimit Scope py_scope with py.
Notation "x <- c ;; k" := (bind c (fun x => k))
  (at level 61, c at next level, right associativity) : py_scope.
Notation "c ;;; k" := (bind c (fun _ => k))
  (at level 61, right associativity) : py_scope.
Local Open Scope py_scope.

(** [time.time()]. *)
Definition time_time : M Z := fun w => (Ok (clock w), w).

(** [time.sleep(seconds)]. *)
Definition time_sleep (seconds : Z) : M unit :=
  fun w => (Ok tt, mkWorld (clock w + seconds) (remote w) (sent w)
                           (log w ++ [Slept seconds])%list).

(** [session.request(...)] followed by reading the response: the next
    exchange of the remote is consumed, its latency passes. *)
Definition session_request (r : Request) : M Transport :=
  fun w =>
    let x := remote w (sent w) in
    (Ok (reply x),
     mkWorld (clock w + Z.of_nat (latency x)) (remote w) (S (sent w))
             (log w ++ [Sent r])%list).

(** [Response.ok] of requests: false exactly for 400 <= status < 600. *)
Definition ok (status : Z) : bool :=
  negb ((400 <=? status) && (status <? 600)).

(** ** Subscripts, attribute access and iteration on a parsed value *)

(** [x[key]] for a string key. *)
Definition getitem (x : json) (key : string) : result json :=
  match x with
  | JObj fields =>
      match Py.lookup key fields with
      | Some v => Ok v
      | None => Raise (Builtin "KeyError")
      end
  | _ => Raise (Builtin "TypeError")
  end.

(** [x.get(key, default)]: only a dict has [get]. *)
Definition get (x : json) (key : string) (default : json) : result json :=
  match x with
  | JObj fields =>
      match Py.lookup key fields with
      | Some v => Ok v
      | None => Ok default
      end
  | _ => Raise (Builtin "AttributeError")
  end.

(** The items [list.extend(x)] appends. *)
Definition iterate (x : json) : result (list json) :=
  match x with
  | JArr items => Ok items
  | JObj fields => Ok (map (fun kv => JStr (fst kv)) fields)
  | JStr s => Ok (Py.chars s)
  | _ => Raise (Builtin "TypeError")
  end.

(** ** MataresitAPI *)

Record Client : Type := mkClient {
  api_key : string;
  base_url : string;
  max_retries : Z
}.

(** Headers the constructor installs on the session. *)
Definition session_headers (self : Client) : list (string * string) :=
  [("X-API-Key", api_key self); ("Content-Type", "application/json")].

(** [MataresitAPI._request]. *)
Definition _request (self : Client) (method endpoint : string) (kwargs : Kwargs)
  : M json :=
  let url := base_url self ++ endpoint in
  let wrapped (why : string) : M json :=
    raise (APIError (api_error ("Request failed: " ++ why))) in
  response <- session_request (mkRequest method url (session_headers self) kwargs) ;;
  match response with
  | RequestException why => wrapped why
  | Response status body =>
      match body with
      | Unparsable why => wrapped why
      | Parsed data =>
          if negb (ok status) then
            msg <- lift (get data "message" (JStr "API request failed")) ;;
            code <- lift (get data "code" JNull) ;;
            raise (APIError (mkAPIError msg (Some status) code))
          else ret data
      end
  end.

(** ** Resources *)

(** [@dataclass class Receipt]. *)
Record Receipt : Type := mkReceipt {
  merchant : string;
  date : string;
  total : Q;
  currency : string;
  payment_method : option string;
  category : option string;
  full_text : option string;
  team_id : option string
}.

(** [@dataclass class Claim]. *)
Record Claim : Type := mkClaim {
  claim_team_id : string;
  title : string;
  amount : Q;
  claim_currency : string;
  description : option string;
  claim_category : option string;
  priority : string
}.

(** [if value: data[key] = value]. *)
Definition set_if_truthy (key : string) (value : option string)
  (data : list (string * json)) : list (string * json) :=
  match value with
  | Some s => if Py.truthy value then Py.set key (JStr s) data else data
  | None => data
  end.

(** The dict [create_receipt] posts. *)
Definition receipt_data (receipt : Receipt) : list (string * json) :=
  let data := [("merchant", JStr (merchant receipt));
               ("date", JStr (date receipt));
               ("total", JFloat (total receipt));
               ("currency", JStr (currency receipt))] in
  let data := set_if_truthy "paymentMethod" (payment_method receipt) data in
  let data := set_if_truthy "category" (category receipt) data in
  let data := set_if_truthy "fullText" (full_text receipt) data in
  set_if_truthy "teamId" (team_id receipt) data.

(** The dict [create_receipts_batch] builds per receipt (no [fullText]). *)
Definition receipt_dict (receipt : Receipt) : list (string * json) :=
  let data := [("merchant", JStr (merchant receipt));
               ("date", JStr (date receipt));
               ("total", JFloat (total receipt));
               ("currency", JStr (currency receipt))] in
  let data := set_if_truthy "paymentMethod" (payment_method receipt) data in
  let data := set_if_truthy "category" (category receipt) data in
  set_if_truthy "teamId" (team_id receipt) data.

(** The dict [create_claim] posts. *)
Definition claim_data (claim : Claim) : list (string * json) :=
  let data := [("teamId", JStr (claim_team_id claim));
               ("title", JStr (title claim));
               ("amount", JFloat (amount claim));
               ("currency", JStr (claim_currency claim));
               ("priority", JStr (priority claim))] in
  let data := set_if_truthy "description" (description claim) data in
  set_if_truthy "category" (claim_category claim) data.

(** ** Client operations *)

Definition health_check (self : Client) : M json :=
  _request self "GET" "/health" NoKwargs.

Definition get_receipts (self : Client) (params : list (string * json)) : M json :=
  _request self "GET" "/receipts" (Params params).

Definition get_receipt (self : Client) (receipt_id : string) : M json :=
  _request self "GET" ("/receipts/" ++ receipt_id) NoKwargs.

Definition create_receipt (self : Client) (receipt : Receipt) : M json :=
  _request self "POST" "/receipts" (Json (JObj (receipt_data receipt))).

Definition update_receipt (self : Client) (receipt_id : string)
  (updates : list (string * json)) : M json :=
  _request self "PUT" ("/receipts/" ++ receipt_id) (Json (JObj updates)).

Definition delete_receipt (self : Client) (receipt_id : string) : M json :=
  _request self "DELETE" ("/receipts/" ++ receipt_id) NoKwargs.

Definition create_receipts_batch (self : Client) (receipts : list Receipt)
  : M json :=
  let receipts_data := map (fun receipt => JObj (receipt_dict receipt)) receipts in
  _request self "POST" "/receipts/batch"
           (Json (JObj [("receipts", JArr receipts_data)])).

Definition get_claims (self : Client) (params : list (string * json)) : M json :=
  _request self "GET" "/claims" (Params params).

Definition create_claim (self : Client) (claim : Claim) : M json :=
  _request self "POST" "/claims" (Json (JObj (claim_data claim))).

(** [search]: [sources] is added when it is a non-empty list. *)
Definition search (self : Client) (query : string)
  (sources : option (list string)) (options : list (string * json)) : M json :=
  let data := [("query", JStr query)] in
  let data :=
    match sources with
    | Some (s :: rest) => Py.set "sources" (JArr (map JStr (s :: rest))) data
    | _ => data
    end in
  _request self "POST" "/search" (Json (JObj (Py.update data options))).

Definition get_analytics (self : Client) (params : list (string * json)) : M json :=
  _request self "GET" "/analytics" (Params params).

Definition get_spending_summary (self : Client) (params : list (string * json))
  : M json :=
  _request self "GET" "/analytics/summary" (Params params).

Definition get_category_analytics (self : Client) (params : list (string * json))
  : M json :=
  _request self "GET" "/analytics/categories" (Params params).

Definition get_teams (self : Client) : M json :=
  _request self "GET" "/teams" NoKwargs.

Definition get_team_stats (self : Client) (team_id : string) : M json :=
  _request self "GET" ("/teams/" ++ team_id ++ "/stats") NoKwargs.

(** The public operations of [MataresitAPI], with their arguments. *)
Inductive Operation : Type :=
| HealthCheck
| GetReceipts (params : list (string * json))
| GetReceipt (receipt_id : string)
| CreateReceipt (receipt : Receipt)
| UpdateReceipt (receipt_id : string) (updates : list (string * json))
| DeleteReceipt (receipt_id : string)
| CreateReceiptsBatch (receipts : list Receipt)
| GetClaims (params : list (string * json))
| CreateClaim (claim : Claim)
| Search (query : string) (sources : option (list string))
         (options : list (string * json))
| GetAnalytics (params : list (string * json))
| GetSpendingSummary (params : list (string * json))
| GetCategoryAnalytics (params : list (string * json))
| GetTeams
| GetTeamStats (team_id : string).

Definition call (self : Client) (op : Operation) : M json :=
  match op with
  | HealthCheck => health_check self
  | GetReceipts params => get_receipts self params
  | GetReceipt receipt_id => get_receipt self receipt_id
  | CreateReceipt receipt => create_receipt self receipt
  | UpdateReceipt receipt_id updates => update_receipt self receipt_id updates
  | DeleteReceipt receipt_id => delete_receipt self receipt_id
  | CreateReceiptsBatch receipts => create_receipts_batch self receipts
  | GetClaims params => get_claims self params
  | CreateClaim claim => create_claim self claim
  | Search query sources options => search self query sources options
  | GetAnalytics params => get_analytics self params
  | GetSpendingSummary params => get_spending_summary self params
  | GetCategoryAnalytics params => get_category_analytics self params
  | GetTeams => get_teams self
  | GetTeamStats team_id => get_team_stats self team_id
  end.

(** ** AdvancedMataresitAPI *)

(** [e.status_code == 429]. *)
Definition rate_limited (e : MataresitAPIError) : bool :=
  match status_code e with
  | Some s => s =? 429
  | None => false
  end.

(** The [for attempt in ...] loop of [_request_with_retry], over the
    attempt numbers still to come; the statement after the loop is the
    [[]] case. *)
Fixpoint retry_loop (self : Client) (method endpoint : string) (kwargs : Kwargs)
  (attempts : list Z) : M json :=
  match attempts with
  | [] => raise (APIError (api_error "Max retries exceeded"))
  | attempt :: rest =>
      try_except (_request self method endpoint kwargs)
        (fun e =>
           if rate_limited e && (attempt <? max_retries self) then
             let delay := 2 ^ attempt in
             time_sleep delay ;;;
             retry_loop self method endpoint kwargs rest
           else raise (APIError e))
  end.

(** [AdvancedMataresitAPI._request_with_retry]. *)
Definition _request_with_retry (self : Client) (method endpoint : string)
  (kwargs : Kwargs) : M json :=
  retry_loop self method endpoint kwargs (Py.range 1 (max_retries self + 1)).

(** One status check of [wait_for_processing]: the receipt and
    [receipt['data'].get('processingStatus', 'pending')]. *)
Definition check_status (self : Client) (receipt_id : string) : M (json * json) :=
  receipt <- get_receipt self receipt_id ;;
  data <- lift (getitem receipt "data") ;;
  status <- lift (get data "processingStatus" (JStr "pending")) ;;
  ret (receipt, status).

(** The [while] loop of [wait_for_processing]; [fuel] bounds the number of
    times the loop condition is evaluated, [None] means it ran out. *)
Fixpoint wait_loop (fuel : nat) (self : Client) (receipt_id : string)
  (max_wait start_time : Z) (w : World) : option (result json * World) :=
  match fuel with
  | O => None
  | S fuel' =>
      if clock w - start_time <? max_wait then
        match check_status self receipt_id w with
        | (Raise e, w1) => Some (Raise e, w1)
        | (Ok (receipt, status), w1) =>
            if Py.eq_str status "complete" then Some (Ok receipt, w1)
            else if Py.eq_str status "failed" then
              Some (Raise (APIError (api_error "Receipt processing failed")), w1)
            else
              wait_loop fuel' self receipt_id max_wait start_time
                        (snd (time_sleep 2 w1))
        end
      else Some (Raise (APIError (api_error "Receipt processing timeout")), w)
  end.

(** Evaluations of the loop condition that always suffice: a round that
    goes on sleeps 2 seconds, so round [k] starts no earlier than [2 * k]
    seconds in. *)
Definition wait_rounds (max_wait : Z) : nat := S (Z.to_nat max_wait).

(** [AdvancedMataresitAPI.wait_for_processing]. *)
Definition wait_for_processing (self : Client) (receipt_id : string)
  (max_wait : Z) (w : World) : option (result json * World) :=
  let start_time := clock w in
  wait_loop (wait_rounds max_wait) self receipt_id max_wait start_time w.

(** The dict [bulk_upload_with_progress] returns. *)
Record Summary : Type := mkSummary {
  sum_total : Z;
  sum_successful : Z;
  sum_failed : Z;
  successful_receipts : list json;
  failed_receipts : list json
}.

(** [result['data'][key]], as [list.extend] iterates it. *)
Definition batch_items (result : json) (key : string) : M (list json) :=
  data <- lift (getitem result "data") ;;
  items <- lift (getitem data key) ;;
  lift (iterate items).

(** Body of the [for i in range(0, total_receipts, batch_size)] loop, on the
    lists [successful] and [failed] built so far. *)
Definition upload_chunk (self : Client) (receipts : list Receipt)
  (batch_size : Z) (lists : list json * list json) (i : Z)
  : M (list json * list json) :=
  let total_receipts := Z.of_nat (List.length receipts) in
  let '(successful, failed) := lists in
  let batch := Py.slice receipts i (i + batch_size) in
  let batch_num := i / batch_size + 1 in
  lists' <-
    try_except
      (result <- create_receipts_batch self batch ;;
       created <- batch_items result "created" ;;
       errors <- batch_items result "errors" ;;
       ret ((successful ++ created)%list, (failed ++ errors)%list))
      (fun e =>
         ret (successful,
              (failed ++ [JObj [("error", message e);
                                ("batch", JInt batch_num)]])%list)) ;;
  (if i + batch_size <? total_receipts then time_sleep 1 else ret tt) ;;;
  ret lists'.

(** The [for] loop, over the chunk offsets still to come. *)
Fixpoint upload_loop (self : Client) (receipts : list Receipt) (batch_size : Z)
  (offsets : list Z) (lists : list json * list json)
  : M (list json * list json) :=
  match offsets with
  | [] => ret lists
  | i :: rest =>
      lists' <- upload_chunk self receipts batch_size lists i ;;
      upload_loop self receipts batch_size rest lists'
  end.

(** [range(0, total_receipts, batch_size)]: a zero step raises, a negative
    one yields nothing from 0 upwards. *)
Definition chunk_offsets (total_receipts batch_size : Z) : result (list Z) :=
  if batch_size =? 0 then Raise (Builtin "ValueError")
  else if batch_size <? 0 then Ok []
  else Ok (Py.range_step 0 total_receipts batch_size).

(** [AdvancedMataresitAPI.bulk_upload_with_progress]. *)
Definition bulk_upload_with_progress (self : Client) (receipts : list Receipt)
  (batch_size : Z) : M Summary :=
  let total_receipts := Z.of_nat (List.length receipts) in
  offsets <- lift (chunk_offsets total_receipts batch_size) ;;
  lists <- upload_loop self receipts batch_size offsets ([], []) ;;
  let '(successful, failed) := lists in
  ret (mkSummary total_receipts
                 (Z.of_nat (List.length successful))
                 (Z.of_nat (List.length failed))
                 successful failed).


(** [AdvancedMataresitAPI.upload_receipt_with_processing]. The f-string of
    [wait_for_processing] formats [receipt_id] with [str]; [str_of] stands
    for that conversion, which is the identity on a [str]. *)
Definition upload_receipt_with_processing (str_of : json -> string)
  (self : Client) (receipt : Receipt) (wait : bool) (w : World)
  : option (result json * World) :=
  match create_receipt self receipt w with
  | (Raise e, w1) => Some (Raise e, w1)
  | (Ok result, w1) =>
      match getitem result "data" with
      | Raise e => Some (Raise e, w1)
      | Ok data =>
          match getitem data "id" with
          | Raise e => Some (Raise e, w1)
          | Ok receipt_id =>
              if wait then wait_for_processing self (str_of receipt_id) 30 w1
              else Some (Ok result, w1)
          end
      end
  end.
(** * Vocabulary of the properties *)

(** The request [_request] sends. *)
Definition request_of (self : Client) (method endpoint : string)
  (kwargs : Kwargs) : Request :=
  mkRequest method (base_url self ++ endpoint) (session_headers self) kwargs.

(** The world after one round trip with request [r]. *)
Definition exchanged (r : Request) (w : World) : World :=
  mkWorld (clock w + Z.of_nat (latency (remote w (sent w)))) (remote w)
          (S (sent w)) (log w ++ [Sent r])%list.

(** The reply the next request of world [w] gets. *)
Definition next_reply (w : World) : Transport := reply (remote w (sent w)).

(** [d.get(key, default)] on the fields of a dict. *)
Definition field_or (key : string) (default : json)
  (fields : list (string * json)) : json :=
  match Py.lookup key fields with
  | Some v => v
  | None => default
  end.

(** The error [_request] raises for a non-success response whose body is
    the dict [fields]. *)
Definition http_error (status : Z) (fields : list (string * json))
  : MataresitAPIError :=
  mkAPIError (field_or "message" (JStr "API request failed") fields)
             (Some status)
             (field_or "code" JNull fields).

(** The error [_request] raises for a transport failure. *)
Definition transport_error (why : string) : MataresitAPIError :=
  mkAPIError (JStr ("Request failed: " ++ why)) None JNull.

(** A health-check reply in the service's envelope. *)
Definition healthy_body : json :=
  JObj [("success", JBool true); ("data", JObj [("status", JStr "healthy")])].

Definition demo_client : Client :=
  mkClient "key" "https://api.example/v1" 3.

(** A remote that answers the [n]-th request with [nth n replies last],
    each after [lag] seconds. *)
Definition scripted (lag : nat) (replies : list Transport) (last : Transport)
  : nat -> Exchange :=
  fun n => mkExchange lag (nth n replies last).

Definition fresh_world (remote : nat -> Exchange) : World :=
  mkWorld 0 remote 0 [].

(** The world after [time.sleep(seconds)]. *)
Definition slept (seconds : Z) (w : World) : World :=
  mkWorld (clock w + seconds) (remote w) (sent w)
          (log w ++ [Slept seconds])%list.

(** A reply that [_request] turns into a rate-limit error: status 429 with
    a JSON object as body. *)
Definition rate_limit_reply (t : Transport) : bool :=
  match t with
  | Response status (Parsed (JObj _)) => status =? 429
  | _ => false
  end.

(** The generic error after the retry loop. *)
Definition max_retries_exceeded : MataresitAPIError :=
  api_error "Max retries exceeded".

(** An error other than the client's rate-limit error. *)
Definition not_rate_limit (e : exn) : bool :=
  match e with
  | APIError a => negb (rate_limited a)
  | Builtin _ => true
  end.

(** A remote that answers every request with 429 "Too many requests". *)
Definition always_429 : nat -> Exchange :=
  scripted 0 [] (Response 429 (Parsed (JObj [("message", JStr "Too many requests")]))).

(** ** Polling *)

(** The request of one status check. *)
Definition poll_request (self : Client) (receipt_id : string) : Request :=
  request_of self "GET" ("/receipts/" ++ receipt_id) NoKwargs.

(** The processing status a status check reads off a reply: the
    [processingStatus] of the body's [data], ['pending'] when absent. *)
Definition reported_status (t : Transport) : option json :=
  match t with
  | Response status (Parsed (JObj fields)) =>
      if ok status then
        match Py.lookup "data" fields with
        | Some (JObj data) =>
            Some (field_or "processingStatus" (JStr "pending") data)
        | _ => None
        end
      else None
  | _ => None
  end.

(** The parsed body of a reply. *)
Definition payload (t : Transport) : option json :=
  match t with
  | Response _ (Parsed body) => Some body
  | _ => None
  end.

(** A status that is neither ['complete'] nor ['failed']. *)
Definition pending_status (s : json) : bool :=
  negb (Py.eq_str s "complete") && negb (Py.eq_str s "failed").

Definition reports_pending (t : Transport) : bool :=
  match reported_status t with
  | Some s => pending_status s
  | None => false
  end.

Definition reports_complete (t : Transport) : bool :=
  match reported_status t with
  | Some s => Py.eq_str s "complete"
  | None => false
  end.

Definition reports_failed (t : Transport) : bool :=
  match reported_status t with
  | Some s => Py.eq_str s "failed"
  | None => false
  end.

(** Seconds that [k] rounds of the poll loop take when the receipt stays
    pending: the latency of each of the exchanges [from], [from + 1], ...
    and the 2-second sleep after it. *)
Fixpoint rounds_time (remote : nat -> Exchange) (from k : nat) : Z :=
  match k with
  | O => 0
  | S k' =>
      Z.of_nat (latency (remote from)) + 2 + rounds_time remote (S from) k'
  end.

(** The world after [k] rounds of the poll loop that found the receipt
    pending: a status check and a 2-second sleep each. *)
Fixpoint polled (self : Client) (receipt_id : string) (k : nat) (w : World)
  : World :=
  match k with
  | O => w
  | S k' =>
      polled self receipt_id k' (slept 2 (exchanged (poll_request self receipt_id) w))
  end.

Definition processing_failed : MataresitAPIError :=
  api_error "Receipt processing failed".

Definition processing_timeout : MataresitAPIError :=
  api_error "Receipt processing timeout".

(** A reply reporting processing status [s] for receipt "r1". *)
Definition status_reply (s : string) : Transport :=
  Response 200 (Parsed (JObj [("success", JBool true);
                              ("data", JObj [("id", JStr "r1");
                                             ("processingStatus", JStr s)])])).

(** ** Chunked upload *)

(** The request [create_receipts_batch] sends for a batch. *)
Definition batch_request (self : Client) (batch : list Receipt) : Request :=
  request_of self "POST" "/receipts/batch"
    (Json (JObj [("receipts",
                  JArr (map (fun receipt => JObj (receipt_dict receipt)) batch))])).

(** Number of chunks: [total_batches] of the source. *)
Definition chunk_count (total_receipts batch_size : Z) : nat :=
  Z.to_nat ((total_receipts + batch_size - 1) / batch_size).

(** The [j]-th chunk (from 0). *)
Definition chunk (receipts : list Receipt) (batch_size : Z) (j : nat)
  : list Receipt :=
  Py.slice receipts (Z.of_nat j * batch_size)
           (Z.of_nat j * batch_size + batch_size).

(** The [MataresitAPIError] that [_request] raises on a reply, if any. *)
Definition api_failure (t : Transport) : option MataresitAPIError :=
  match t with
  | RequestException why => Some (transport_error why)
  | Response _ (Unparsable why) => Some (transport_error why)
  | Response status (Parsed (JObj fields)) =>
      if ok status then None else Some (http_error status fields)
  | Response _ (Parsed _) => None
  end.

(** The items of [data.created] and [data.errors] of a successful reply
    whose body has both as iterable values. *)
Definition batch_lists (t : Transport) : option (list json * list json) :=
  match t with
  | Response status (Parsed body) =>
      if ok status then
        match getitem body "data" with
        | Ok data =>
            match getitem data "created", getitem data "errors" with
            | Ok created, Ok errors =>
                match iterate created, iterate errors with
                | Ok cs, Ok es => Some (cs, es)
                | _, _ => None
                end
            | _, _ => None
            end
        | Raise _ => None
        end
      else None
  | _ => None
  end.

(** The aggregate entry recorded for a chunk whose upload raised [e]. *)
Definition failure_entry (e : MataresitAPIError) (batch_num : Z) : json :=
  JObj [("error", message e); ("batch", JInt batch_num)].

(** What the chunk numbered [batch_num] adds to [successful] and to
    [failed], given the reply to its upload; [None] when the reply makes
    the loop body raise a builtin exception. *)
Definition chunk_lists (batch_num : Z) (t : Transport)
  : option (list json * list json) :=
  match api_failure t with
  | Some e => Some ([], [failure_entry e batch_num])
  | None => batch_lists t
  end.

(** A reply the loop body copes with: an API failure, or a well-formed
    batch result. *)
Definition handled (t : Transport) : bool :=
  match chunk_lists 0 t with
  | Some _ => true
  | None => false
  end.

(** What chunk [j] of an upload started in world [w] adds to
    [successful], and to [failed]. *)
Definition chunk_created (w : World) (j : nat) : list json :=
  match chunk_lists (Z.of_nat j + 1) (reply (remote w (sent w + j))) with
  | Some (created, _) => created
  | None => []
  end.

Definition chunk_failed (w : World) (j : nat) : list json :=
  match chunk_lists (Z.of_nat j + 1) (reply (remote w (sent w + j))) with
  | Some (_, failed) => failed
  | None => []
  end.

(** The world after the optional 1-second pause. *)
Definition paused (pause : bool) (w : World) : World :=
  if pause then slept 1 w else w.

(** What the upload does for chunk [j] of [count]: one request, and a
    1-second sleep unless the chunk is the last. *)
Definition chunk_events (self : Client) (receipts : list Receipt)
  (batch_size : Z) (count j : nat) : list Event :=
  Sent (batch_request self (chunk receipts batch_size j))
  :: (if (S j <? count)%nat then [Slept 1] else []).

Definition upload_events (self : Client) (receipts : list Receipt)
  (batch_size : Z) : list Event :=
  let count := chunk_count (Z.of_nat (List.length receipts)) batch_size in
  flat_map (chunk_events self receipts batch_size count) (seq 0 count).

(** A well-formed batch result. *)
Definition batch_reply (created errors : list json) : Transport :=
  Response 200 (Parsed (JObj [("success", JBool true);
                              ("data", JObj [("created", JArr created);
                                             ("errors", JArr errors)])])).

Definition sample_receipt : Receipt :=
  mkReceipt "Cafe" "2025-01-15" (45 # 10) "USD" None (Some "Food") None None.

(** ** Further vocabulary *)

(** The durations of the sleeps in a log, oldest first. *)
Fixpoint sleeps (events : list Event) : list Z :=
  match events with
  | [] => []
  | Slept seconds :: rest => seconds :: sleeps rest
  | Sent _ :: rest => sleeps rest
  end.


(** The keys of a dict. *)
Definition keys (fields : list (string * json)) : list string :=
  map fst fields.

(** [receipt] with [full_text] unset. *)
Definition without_full_text (receipt : Receipt) : Receipt :=
  mkReceipt (merchant receipt) (date receipt) (total receipt)
            (currency receipt) (payment_method receipt) (category receipt)
            None (team_id receipt).

(** The value an [Optional[str]] field contributes to a posted dict. *)
Definition optional_field (value : option string) : option json :=
  match value with
  | Some s => if Py.truthy value then Some (JStr s) else None
  | None => None
  end.

(** The dict [search] posts. *)
Definition search_data (query : string) (sources : option (list string))
  (options : list (string * json)) : list (string * json) :=
  Py.update
    (match sources with
     | Some (s :: rest) =>
         Py.set "sources" (JArr (map JStr (s :: rest))) [("query", JStr query)]
     | _ => [("query", JStr query)]
     end)
    options.

(** The request [create_receipt] sends. *)
Definition create_request (self : Client) (receipt : Receipt) : Request :=
  request_of self "POST" "/receipts" (Json (JObj (receipt_data receipt))).

(** [str] on the values the examples below format: the identity on a
    string, a placeholder elsewhere. *)
Definition str_of_string (x : json) : string :=
  match x with
  | JStr s => s
  | _ => "?"
  end.

(** A create reply carrying the id "r1". *)
Definition created_reply : Transport :=
  Response 201 (Parsed (JObj [("success", JBool true);
                              ("data", JObj [("id", JStr "r1")])])).
(** * Properties *)

(** ** The request executor *)

Lemma request_world (self : Client) (method endpoint : string)
  (kwargs : Kwargs) (w : World) :
  snd (_request self method endpoint kwargs w)
  = exchanged (request_of self method endpoint kwargs) w.
Proof.
  unfold _request, bind, session_request; cbn.
  destruct (reply (remote w (sent w))) as [why | status [data | why]];
    try reflexivity.
  destruct (negb (ok status)); [| reflexivity].
  destruct data; try reflexivity.
  unfold lift, get.
  destruct (Py.lookup "message" fields); destruct (Py.lookup "code" fields);
    reflexivity.
Qed.

Lemma request_success (self : Client) (method endpoint : string)
  (kwargs : Kwargs) (w : World) (status : Z) (data : json) :
  next_reply w = Response status (Parsed data) ->
  ok status = true ->
  _request self method endpoint kwargs w
  = (Ok data, exchanged (request_of self method endpoint kwargs) w).
Proof.
  unfold next_reply, _request, bind, session_request; cbn.
  intros -> ->. reflexivity.
Qed.

Lemma request_http_error (self : Client) (method endpoint : string)
  (kwargs : Kwargs) (w : World) (status : Z) (fields : list (string * json)) :
  next_reply w = Response status (Parsed (JObj fields)) ->
  ok status = false ->
  _request self method endpoint kwargs w
  = (Raise (APIError (http_error status fields)),
     exchanged (request_of self method endpoint kwargs) w).
Proof.
  unfold next_reply, _request, bind, session_request; cbn.
  intros -> ->. cbn. unfold http_error, field_or, lift, raise.
  destruct (Py.lookup "message" fields); destruct (Py.lookup "code" fields);
    reflexivity.
Qed.

Lemma request_transport_error (self : Client) (method endpoint : string)
  (kwargs : Kwargs) (w : World) (why : string) :
  next_reply w = RequestException why ->
  _request self method endpoint kwargs w
  = (Raise (APIError (transport_error why)),
     exchanged (request_of self method endpoint kwargs) w).
Proof.
  unfold next_reply, _request, bind, session_request; cbn.
  intros ->. reflexivity.
Qed.

(** Every client operation is one call of [_request]. *)
Lemma call_is_request (self : Client) (op : Operation) :
  exists method endpoint kwargs,
    call self op = _request self method endpoint kwargs.
Proof.
  destruct op; cbn; eexists _, _, _; reflexivity.
Qed.

(** C1, as stated, fails: on a successful health check whose body is the
    usual envelope, the caller gets the whole envelope, which is not its
    [data] field. *)
Lemma call_returns_data_field_counterexample :
  next_reply (fresh_world (scripted 0 [] (Response 200 (Parsed healthy_body))))
  = Response 200 (Parsed healthy_body)
  /\ ok 200 = true
  /\ getitem healthy_body "data" = Ok (JObj [("status", JStr "healthy")])
  /\ fst (call demo_client HealthCheck
            (fresh_world (scripted 0 [] (Response 200 (Parsed healthy_body)))))
     <> Ok (JObj [("status", JStr "healthy")]).
Proof.
  repeat split; try reflexivity.
  vm_compute. discriminate.
Qed.

(** C1 (amended): for every client operation whose HTTP response is
    successful and whose body parses as JSON, the value returned to the
    caller is the whole parsed body (the envelope whose [data] field the
    callers then read), after exactly one request. *)
Theorem call_returns_parsed_body (self : Client) (op : Operation) (w : World)
  (status : Z) (data : json) :
  next_reply w = Response status (Parsed data) ->
  ok status = true ->
  fst (call self op w) = Ok data
  /\ sent (snd (call self op w)) = S (sent w).
Proof.
  intros Hreply Hok.
  destruct (call_is_request self op) as (method & endpoint & kwargs & ->).
  rewrite (request_success _ _ _ _ _ _ _ Hreply Hok). split; reflexivity.
Qed.

Lemma call_returns_parsed_body_witness :
  fst (call demo_client HealthCheck
         (fresh_world (scripted 0 [] (Response 200 (Parsed healthy_body)))))
  = Ok healthy_body
  /\ sent (snd (call demo_client HealthCheck
                  (fresh_world (scripted 0 [] (Response 200 (Parsed healthy_body))))))
     = 1%nat.
Proof.
  apply (call_returns_parsed_body demo_client HealthCheck
           (fresh_world (scripted 0 [] (Response 200 (Parsed healthy_body))))
           200 healthy_body); reflexivity.
Defined.

(** C4, as stated, fails: a 500 response whose body is the JSON array [[]]
    parses, but [data.get] raises [AttributeError], which carries no status
    code and is not the client's error type. *)
Lemma request_error_status_counterexample :
  next_reply (fresh_world (scripted 0 [] (Response 500 (Parsed (JArr [])))))
  = Response 500 (Parsed (JArr []))
  /\ ok 500 = false
  /\ fst (_request demo_client "GET" "/health" NoKwargs
            (fresh_world (scripted 0 [] (Response 500 (Parsed (JArr []))))))
     = Raise (Builtin "AttributeError").
Proof.
  repeat split; reflexivity.
Qed.

(** C4 (amended): if the response indicates non-success and the body parses
    as a JSON object, [_request] raises [MataresitAPIError] with the
    response's status code and the payload's [message] (the generic
    "API request failed" when absent); if the transport fails, it raises
    the same error type with message "Request failed: ..." and no status
    code. *)
Theorem request_error_status (self : Client) (method endpoint : string)
  (kwargs : Kwargs) (w : World) :
  (forall status fields,
      next_reply w = Response status (Parsed (JObj fields)) ->
      ok status = false ->
      exists e,
        fst (_request self method endpoint kwargs w) = Raise (APIError e)
        /\ status_code e = Some status
        /\ message e = field_or "message" (JStr "API request failed") fields)
  /\ (forall why,
         next_reply w = RequestException why ->
         exists e,
           fst (_request self method endpoint kwargs w) = Raise (APIError e)
           /\ status_code e = None
           /\ message e = JStr ("Request failed: " ++ why)).
Proof.
  split.
  - intros status fields Hreply Hok.
    rewrite (request_http_error _ _ _ _ _ _ _ Hreply Hok).
    exists (http_error status fields). repeat split.
  - intros why Hreply.
    rewrite (request_transport_error _ _ _ _ _ _ Hreply).
    exists (transport_error why). repeat split.
Qed.

Lemma request_error_status_witness :
  (exists e,
      fst (_request demo_client "GET" "/health" NoKwargs
             (fresh_world (scripted 0 []
                (Response 503 (Parsed (JObj [("code", JStr "DOWN")]))))))
      = Raise (APIError e)
      /\ status_code e = Some 503
      /\ message e = JStr "API request failed")
  /\ (exists e,
         fst (_request demo_client "GET" "/health" NoKwargs
                (fresh_world (scripted 0 [] (RequestException "timed out"))))
         = Raise (APIError e)
         /\ status_code e = None
         /\ message e = JStr "Request failed: timed out").
Proof.
  split.
  - apply (proj1 (request_error_status demo_client "GET" "/health" NoKwargs
                    (fresh_world (scripted 0 []
                       (Response 503 (Parsed (JObj [("code", JStr "DOWN")]))))))
                 503 [("code", JStr "DOWN")]); reflexivity.
  - apply (proj2 (request_error_status demo_client "GET" "/health" NoKwargs
                    (fresh_world (scripted 0 [] (RequestException "timed out"))))
                 "timed out"); reflexivity.
Defined.

(** ** Retry with backoff *)

Lemma range_nil (a b : Z) : b <= a -> Py.range a b = [].
Proof.
  intros H. unfold Py.range.
  replace (Z.to_nat (b - a)) with 0%nat by lia. reflexivity.
Qed.

Lemma range_cons (a b : Z) : a < b -> Py.range a b = a :: Py.range (a + 1) b.
Proof.
  intros H. unfold Py.range.
  replace (Z.to_nat (b - a)) with (S (Z.to_nat (b - (a + 1)))) by lia.
  cbn [seq map]. f_equal; [lia |].
  rewrite <- seq_shift, map_map.
  apply map_ext. intros k. lia.
Qed.

Lemma rate_limit_reply_inv (t : Transport) :
  rate_limit_reply t = true ->
  exists fields, t = Response 429 (Parsed (JObj fields)).
Proof.
  destruct t as [why | status [data | why]]; cbn; try discriminate.
  destruct data; try discriminate.
  intros H. apply Z.eqb_eq in H. subst. eauto.
Qed.

Lemma retry_loop_ok (self : Client) (method endpoint : string) (kwargs : Kwargs)
  (attempt : Z) (rest : list Z) (w : World) (data : json) :
  fst (_request self method endpoint kwargs w) = Ok data ->
  retry_loop self method endpoint kwargs (attempt :: rest) w
  = _request self method endpoint kwargs w.
Proof.
  cbn [retry_loop]. unfold try_except.
  destruct (_request self method endpoint kwargs w) as [[a | e] w1]; cbn;
    [reflexivity | discriminate].
Qed.

Lemma retry_loop_propagates (self : Client) (method endpoint : string)
  (kwargs : Kwargs) (attempt : Z) (rest : list Z) (w : World) (e : exn) :
  fst (_request self method endpoint kwargs w) = Raise e ->
  not_rate_limit e = true ->
  retry_loop self method endpoint kwargs (attempt :: rest) w
  = _request self method endpoint kwargs w.
Proof.
  cbn [retry_loop]. unfold try_except.
  destruct (_request self method endpoint kwargs w) as [[a | e0] w1]; cbn;
    [discriminate |].
  intros [= ->]. destruct e as [a | cls]; cbn; [| reflexivity].
  intros Ha. apply negb_true_iff in Ha. rewrite Ha. reflexivity.
Qed.

Lemma retry_loop_last (self : Client) (method endpoint : string)
  (kwargs : Kwargs) (attempt : Z) (rest : list Z) (w : World) (e : exn) :
  fst (_request self method endpoint kwargs w) = Raise e ->
  max_retries self <= attempt ->
  retry_loop self method endpoint kwargs (attempt :: rest) w
  = _request self method endpoint kwargs w.
Proof.
  cbn [retry_loop]. unfold try_except.
  destruct (_request self method endpoint kwargs w) as [[a | e0] w1]; cbn;
    [discriminate |].
  intros [= ->] Hle. destruct e as [a | cls]; [| reflexivity].
  replace (attempt <? max_retries self) with false
    by (symmetry; apply Z.ltb_ge; exact Hle).
  rewrite andb_false_r. reflexivity.
Qed.

Lemma retry_loop_backoff (self : Client) (method endpoint : string)
  (kwargs : Kwargs) (attempt : Z) (rest : list Z) (w : World) :
  rate_limit_reply (next_reply w) = true ->
  attempt < max_retries self ->
  retry_loop self method endpoint kwargs (attempt :: rest) w
  = retry_loop self method endpoint kwargs rest
      (slept (2 ^ attempt) (exchanged (request_of self method endpoint kwargs) w)).
Proof.
  intros Hr Hlt. apply rate_limit_reply_inv in Hr as [fields Hr].
  cbn [retry_loop]. unfold try_except.
  rewrite (request_http_error _ _ _ _ _ _ _ Hr eq_refl).
  cbn [rate_limited http_error status_code].
  replace (attempt <? max_retries self) with true
    by (symmetry; apply Z.ltb_lt; exact Hlt).
  reflexivity.
Qed.

Lemma request_rate_limited (self : Client) (method endpoint : string)
  (kwargs : Kwargs) (w : World) (fields : list (string * json)) :
  next_reply w = Response 429 (Parsed (JObj fields)) ->
  _request self method endpoint kwargs w
  = (Raise (APIError (http_error 429 fields)),
     exchanged (request_of self method endpoint kwargs) w).
Proof.
  intros Hr. exact (request_http_error _ _ _ _ _ _ _ Hr eq_refl).
Qed.

(** [_request] never raises the generic error of the retry wrapper. *)
Lemma request_never_generic (self : Client) (method endpoint : string)
  (kwargs : Kwargs) (w : World) :
  fst (_request self method endpoint kwargs w)
  <> Raise (APIError max_retries_exceeded).
Proof.
  unfold _request, bind, session_request; cbn.
  destruct (reply (remote w (sent w))) as [why | status [data | why]];
    try (cbn; discriminate).
  destruct (negb (ok status)); [| cbn; discriminate].
  destruct data; try (cbn; discriminate).
  unfold lift, get.
  destruct (Py.lookup "message" fields); destruct (Py.lookup "code" fields);
    cbn; discriminate.
Qed.

Lemma retry_loop_retries (self : Client) (method endpoint : string)
  (kwargs : Kwargs) (attempt : Z) (rest : list Z) (w : World)
  (e : MataresitAPIError) :
  fst (_request self method endpoint kwargs w) = Raise (APIError e) ->
  rate_limited e = true ->
  attempt < max_retries self ->
  retry_loop self method endpoint kwargs (attempt :: rest) w
  = retry_loop self method endpoint kwargs rest
      (slept (2 ^ attempt) (snd (_request self method endpoint kwargs w))).
Proof.
  cbn [retry_loop]. unfold try_except.
  destruct (_request self method endpoint kwargs w) as [[a | e0] w1]; cbn;
    [discriminate |].
  intros [= ->] -> Hlt.
  replace (attempt <? max_retries self) with true
    by (symmetry; apply Z.ltb_lt; exact Hlt).
  reflexivity.
Qed.

(** With at least one attempt left, the loop ends in one of its attempts:
    its outcome and final world are those of a call of [_request]. *)
Lemma retry_loop_ends_in_request (self : Client) (method endpoint : string)
  (kwargs : Kwargs) (n : nat) :
  forall (a : Z) (w : World),
    Z.of_nat n = max_retries self - a ->
    exists w1,
      retry_loop self method endpoint kwargs
                 (Py.range a (max_retries self + 1)) w
      = _request self method endpoint kwargs w1.
Proof.
  induction n as [| n IH]; intros a w Hn;
    (rewrite range_cons by lia);
    destruct (fst (_request self method endpoint kwargs w)) as [data | e] eqn:Hreq.
  - exists w. apply (retry_loop_ok _ _ _ _ _ _ _ _ Hreq).
  - exists w. apply (retry_loop_last _ _ _ _ _ _ _ _ Hreq). lia.
  - exists w. apply (retry_loop_ok _ _ _ _ _ _ _ _ Hreq).
  - destruct (not_rate_limit e) eqn:Hnot.
    + exists w. apply (retry_loop_propagates _ _ _ _ _ _ _ _ Hreq Hnot).
    + destruct e as [e | cls]; [| discriminate].
      cbn in Hnot. apply negb_false_iff in Hnot.
      rewrite (retry_loop_retries _ _ _ _ _ _ _ _ Hreq Hnot) by lia.
      apply IH. lia.
Qed.

(** C2, as stated, fails: with max-retries 3 and a remote that always
    answers 429, the wrapper makes 3 attempts, but what it raises is not
    the generic "Max retries exceeded" error. *)
Lemma retry_exhausted_generic_error_counterexample :
  max_retries demo_client = 3
  /\ sent (snd (_request_with_retry demo_client "GET" "/health" NoKwargs
                  (fresh_world always_429))) = 3%nat
  /\ fst (_request_with_retry demo_client "GET" "/health" NoKwargs
            (fresh_world always_429))
     <> Raise (APIError max_retries_exceeded).
Proof.
  repeat split. vm_compute. discriminate.
Qed.

(** C2 (amended): with max-retries = 3 and a remote that answers every
    request with a rate-limit (429) error, the wrapper performs exactly 3
    attempts, sleeping 2 and then 4 seconds between them, and then fails
    with the rate-limit error of the third attempt. *)
Theorem retry_exhausted_reraises_last_error (self : Client)
  (method endpoint : string) (kwargs : Kwargs) (w : World) :
  max_retries self = 3 ->
  (forall n, rate_limit_reply (reply (remote w n)) = true) ->
  (exists fields,
      reply (remote w (S (S (sent w)))) = Response 429 (Parsed (JObj fields))
      /\ fst (_request_with_retry self method endpoint kwargs w)
         = Raise (APIError (http_error 429 fields)))
  /\ sent (snd (_request_with_retry self method endpoint kwargs w))
     = S (S (S (sent w)))
  /\ log (snd (_request_with_retry self method endpoint kwargs w))
     = (log w ++ [Sent (request_of self method endpoint kwargs); Slept 2;
                  Sent (request_of self method endpoint kwargs); Slept 4;
                  Sent (request_of self method endpoint kwargs)])%list.
Proof.
  intros Hmax Hall. unfold _request_with_retry. rewrite Hmax.
  change (Py.range 1 (3 + 1)) with [1; 2; 3].
  rewrite retry_loop_backoff by (first [apply Hall | lia]).
  rewrite retry_loop_backoff by (first [apply Hall | lia]).
  destruct (rate_limit_reply_inv _ (Hall (S (S (sent w))))) as [fields Hthird].
  set (w2 := slept _ _).
  assert (Hnext : next_reply w2 = Response 429 (Parsed (JObj fields)))
    by exact Hthird.
  rewrite (retry_loop_last self method endpoint kwargs 3 [] w2
             (APIError (http_error 429 fields)));
    [| rewrite (request_rate_limited _ _ _ _ _ _ Hnext); reflexivity | lia].
  rewrite (request_rate_limited _ _ _ _ _ _ Hnext).
  split; [exists fields; split; [exact Hthird | reflexivity] |].
  split; [reflexivity |].
  cbn. rewrite <- !app_assoc. reflexivity.
Qed.

Lemma retry_exhausted_reraises_last_error_witness :
  (exists fields,
      reply (always_429 2%nat) = Response 429 (Parsed (JObj fields))
      /\ fst (_request_with_retry demo_client "GET" "/health" NoKwargs
                (fresh_world always_429))
         = Raise (APIError (http_error 429 fields)))
  /\ sent (snd (_request_with_retry demo_client "GET" "/health" NoKwargs
                  (fresh_world always_429))) = 3%nat
  /\ log (snd (_request_with_retry demo_client "GET" "/health" NoKwargs
                 (fresh_world always_429)))
     = [Sent (request_of demo_client "GET" "/health" NoKwargs); Slept 2;
        Sent (request_of demo_client "GET" "/health" NoKwargs); Slept 4;
        Sent (request_of demo_client "GET" "/health" NoKwargs)].
Proof.
  apply (retry_exhausted_reraises_last_error demo_client "GET" "/health"
           NoKwargs (fresh_world always_429)).
  - reflexivity.
  - intros n. unfold always_429, scripted; cbn.
    destruct n as [| n]; [reflexivity | destruct n; reflexivity].
Defined.

(** C3: when the underlying responses are [429, 429, 200] (and at least
    three attempts are allowed, as with the default max-retries 3), exactly
    two backoff delays occur, of 2^1 = 2 and 2^2 = 4 seconds, and the call
    returns the payload of the 200 response; at any attempt, an error that
    is not a 429 error propagates as it is, with no delay and no further
    request. *)
Theorem retry_two_backoffs_then_payload (self : Client)
  (method endpoint : string) (kwargs : Kwargs) (w : World) (data : json) :
  3 <= max_retries self ->
  rate_limit_reply (reply (remote w (sent w))) = true ->
  rate_limit_reply (reply (remote w (S (sent w)))) = true ->
  reply (remote w (S (S (sent w)))) = Response 200 (Parsed data) ->
  (fst (_request_with_retry self method endpoint kwargs w) = Ok data
   /\ log (snd (_request_with_retry self method endpoint kwargs w))
      = (log w ++ [Sent (request_of self method endpoint kwargs); Slept (2 ^ 1);
                   Sent (request_of self method endpoint kwargs); Slept (2 ^ 2);
                   Sent (request_of self method endpoint kwargs)])%list)
  /\ (forall (attempt : Z) (rest : list Z) (w0 : World) (e : exn),
         fst (_request self method endpoint kwargs w0) = Raise e ->
         not_rate_limit e = true ->
         retry_loop self method endpoint kwargs (attempt :: rest) w0
         = _request self method endpoint kwargs w0)
  /\ (forall e : exn,
         fst (_request self method endpoint kwargs w) = Raise e ->
         not_rate_limit e = true ->
         _request_with_retry self method endpoint kwargs w
         = _request self method endpoint kwargs w).
Proof.
  intros Hmax H0 H1 H2. split; [| split].
  - unfold _request_with_retry.
    rewrite (range_cons 1) by lia. rewrite (range_cons (1 + 1)) by lia.
    rewrite (range_cons (1 + 1 + 1)) by lia.
    rewrite retry_loop_backoff by (first [exact H0 | lia]).
    rewrite retry_loop_backoff by (first [exact H1 | lia]).
    set (w2 := slept _ _).
    assert (Hnext : next_reply w2 = Response 200 (Parsed data)) by exact H2.
    rewrite (retry_loop_ok self method endpoint kwargs _ _ w2 data)
      by (rewrite (request_success _ _ _ _ _ _ _ Hnext eq_refl); reflexivity).
    rewrite (request_success _ _ _ _ _ _ _ Hnext eq_refl).
    split; [reflexivity |].
    cbn. rewrite <- !app_assoc. reflexivity.
  - intros attempt rest w0 e. apply retry_loop_propagates.
  - intros e Hreq Hnot. unfold _request_with_retry.
    rewrite (range_cons 1) by lia.
    apply (retry_loop_propagates _ _ _ _ _ _ _ _ Hreq Hnot).
Qed.

Lemma retry_two_backoffs_then_payload_witness :
  (fst (_request_with_retry demo_client "GET" "/health" NoKwargs
          (fresh_world (scripted 0
             [Response 429 (Parsed (JObj [])); Response 429 (Parsed (JObj []))]
             (Response 200 (Parsed healthy_body)))))
   = Ok healthy_body
   /\ log (snd (_request_with_retry demo_client "GET" "/health" NoKwargs
                  (fresh_world (scripted 0
                     [Response 429 (Parsed (JObj []));
                      Response 429 (Parsed (JObj []))]
                     (Response 200 (Parsed healthy_body))))))
      = [Sent (request_of demo_client "GET" "/health" NoKwargs); Slept 2;
         Sent (request_of demo_client "GET" "/health" NoKwargs); Slept 4;
         Sent (request_of demo_client "GET" "/health" NoKwargs)])
  /\ retry_loop demo_client "GET" "/health" NoKwargs [1; 2; 3]
       (fresh_world (scripted 0 [] (Response 500 (Parsed (JObj [])))))
     = _request demo_client "GET" "/health" NoKwargs
         (fresh_world (scripted 0 [] (Response 500 (Parsed (JObj []))))).
Proof.
  pose proof (retry_two_backoffs_then_payload demo_client "GET" "/health"
                NoKwargs
                (fresh_world (scripted 0
                   [Response 429 (Parsed (JObj []));
                    Response 429 (Parsed (JObj []))]
                   (Response 200 (Parsed healthy_body))))
                healthy_body ltac:(cbn; lia) eq_refl eq_refl eq_refl)
    as [Hrun [Hprop _]].
  split; [exact Hrun |].
  apply (Hprop 1 [2; 3]
           (fresh_world (scripted 0 [] (Response 500 (Parsed (JObj [])))))
           (APIError (http_error 500 []))); reflexivity.
Defined.

(** C10: with max-retries >= 1 the raise after the loop is never reached:
    the wrapper ends in one of its attempts, with the outcome and final
    world of that call of [_request], so a failing call raises the error of
    its last attempt and never the generic "Max retries exceeded" error;
    with max-retries = 0 the wrapper sends no request and raises the
    generic error at once. *)
Theorem retry_generic_raise_unreachable (self : Client)
  (method endpoint : string) (kwargs : Kwargs) (w : World) :
  (1 <= max_retries self ->
   (exists w1,
       _request_with_retry self method endpoint kwargs w
       = _request self method endpoint kwargs w1)
   /\ fst (_request_with_retry self method endpoint kwargs w)
      <> Raise (APIError max_retries_exceeded))
  /\ (max_retries self = 0 ->
      _request_with_retry self method endpoint kwargs w
      = (Raise (APIError max_retries_exceeded), w)).
Proof.
  split.
  - intros Hmax.
    destruct (retry_loop_ends_in_request self method endpoint kwargs
                (Z.to_nat (max_retries self - 1)) 1 w ltac:(lia)) as [w1 Hw1].
    unfold _request_with_retry. rewrite Hw1.
    split; [exists w1; reflexivity | apply request_never_generic].
  - intros Hzero. unfold _request_with_retry. rewrite Hzero. reflexivity.
Qed.

Lemma retry_generic_raise_unreachable_witness :
  ((exists w1,
       _request_with_retry demo_client "GET" "/health" NoKwargs
         (fresh_world always_429)
       = _request demo_client "GET" "/health" NoKwargs w1)
   /\ fst (_request_with_retry demo_client "GET" "/health" NoKwargs
             (fresh_world always_429))
      <> Raise (APIError max_retries_exceeded))
  /\ _request_with_retry (mkClient "key" "https://api.example/v1" 0)
       "GET" "/health" NoKwargs (fresh_world always_429)
     = (Raise (APIError max_retries_exceeded), fresh_world always_429).
Proof.
  split.
  - apply (proj1 (retry_generic_raise_unreachable demo_client "GET" "/health"
                    NoKwargs (fresh_world always_429))).
    cbn. lia.
  - apply (proj2 (retry_generic_raise_unreachable
                    (mkClient "key" "https://api.example/v1" 0)
                    "GET" "/health" NoKwargs (fresh_world always_429))).
    reflexivity.
Defined.

(** ** Polling for processing *)

Lemma check_status_world (self : Client) (receipt_id : string) (w : World) :
  snd (check_status self receipt_id w)
  = exchanged (poll_request self receipt_id) w.
Proof.
  unfold check_status, get_receipt, bind, lift, ret.
  pose proof (request_world self "GET" ("/receipts/" ++ receipt_id) NoKwargs w)
    as Hw.
  destruct (_request self "GET" ("/receipts/" ++ receipt_id) NoKwargs w)
    as [[receipt | e] w1]; cbn in Hw; subst w1; [| reflexivity].
  destruct (getitem receipt "data") as [data | e]; [| reflexivity].
  destruct (get data "processingStatus" (JStr "pending")); reflexivity.
Qed.

Lemma reported_status_inv (t : Transport) (s : json) :
  reported_status t = Some s ->
  exists status fields data,
    t = Response status (Parsed (JObj fields))
    /\ ok status = true
    /\ Py.lookup "data" fields = Some (JObj data)
    /\ s = field_or "processingStatus" (JStr "pending") data.
Proof.
  destruct t as [why | status [body | why]]; cbn; try discriminate.
  destruct body; try discriminate.
  destruct (ok status) eqn:Hok; try discriminate.
  destruct (Py.lookup "data" fields) as [[| | | | | | data] |] eqn:Hdata;
    try discriminate.
  intros [= <-]. exists status, fields, data. auto.
Qed.

Lemma check_status_reported (self : Client) (receipt_id : string) (w : World)
  (s : json) :
  reported_status (next_reply w) = Some s ->
  exists body,
    payload (next_reply w) = Some body
    /\ check_status self receipt_id w
       = (Ok (body, s), exchanged (poll_request self receipt_id) w).
Proof.
  intros Hs.
  destruct (reported_status_inv _ _ Hs)
    as (status & fields & data & Hreply & Hok & Hdata & ->).
  exists (JObj fields). rewrite Hreply. split; [reflexivity |].
  unfold check_status, get_receipt, bind.
  rewrite (request_success _ _ _ _ _ _ _ Hreply Hok).
  unfold lift, getitem, get, field_or, ret. rewrite Hdata.
  destruct (Py.lookup "processingStatus" data); reflexivity.
Qed.

Lemma failed_not_complete (s : json) :
  Py.eq_str s "failed" = true -> Py.eq_str s "complete" = false.
Proof.
  destruct s; cbn; try discriminate.
  intros H. apply String.eqb_eq in H. subst. reflexivity.
Qed.

Lemma wait_loop_timeout (self : Client) (receipt_id : string)
  (max_wait start_time : Z) (fuel : nat) (w : World) :
  max_wait <= clock w - start_time ->
  wait_loop (S fuel) self receipt_id max_wait start_time w
  = Some (Raise (APIError processing_timeout), w).
Proof.
  intros H. cbn [wait_loop].
  replace (clock w - start_time <? max_wait) with false
    by (symmetry; apply Z.ltb_ge; exact H).
  reflexivity.
Qed.

Lemma wait_loop_pending (self : Client) (receipt_id : string)
  (max_wait start_time : Z) (fuel : nat) (w : World) :
  clock w - start_time < max_wait ->
  reports_pending (next_reply w) = true ->
  wait_loop (S fuel) self receipt_id max_wait start_time w
  = wait_loop fuel self receipt_id max_wait start_time
      (slept 2 (exchanged (poll_request self receipt_id) w)).
Proof.
  intros Ht Hp. cbn [wait_loop].
  replace (clock w - start_time <? max_wait) with true
    by (symmetry; apply Z.ltb_lt; exact Ht).
  unfold reports_pending in Hp.
  destruct (reported_status (next_reply w)) as [s |] eqn:Hs; [| discriminate].
  destruct (check_status_reported self receipt_id w s Hs) as (body & _ & ->).
  unfold pending_status in Hp. apply andb_true_iff in Hp as [Hc Hf].
  apply negb_true_iff in Hc, Hf. rewrite Hc, Hf. reflexivity.
Qed.

Lemma wait_loop_complete (self : Client) (receipt_id : string)
  (max_wait start_time : Z) (fuel : nat) (w : World) (receipt : json) :
  clock w - start_time < max_wait ->
  reports_complete (next_reply w) = true ->
  payload (next_reply w) = Some receipt ->
  wait_loop (S fuel) self receipt_id max_wait start_time w
  = Some (Ok receipt, exchanged (poll_request self receipt_id) w).
Proof.
  intros Ht Hc Hbody. cbn [wait_loop].
  replace (clock w - start_time <? max_wait) with true
    by (symmetry; apply Z.ltb_lt; exact Ht).
  unfold reports_complete in Hc.
  destruct (reported_status (next_reply w)) as [s |] eqn:Hs; [| discriminate].
  destruct (check_status_reported self receipt_id w s Hs) as (body & Hb & ->).
  rewrite Hc. congruence.
Qed.

Lemma wait_loop_failed (self : Client) (receipt_id : string)
  (max_wait start_time : Z) (fuel : nat) (w : World) :
  clock w - start_time < max_wait ->
  reports_failed (next_reply w) = true ->
  wait_loop (S fuel) self receipt_id max_wait start_time w
  = Some (Raise (APIError processing_failed),
          exchanged (poll_request self receipt_id) w).
Proof.
  intros Ht Hf. cbn [wait_loop].
  replace (clock w - start_time <? max_wait) with true
    by (symmetry; apply Z.ltb_lt; exact Ht).
  unfold reports_failed in Hf.
  destruct (reported_status (next_reply w)) as [s |] eqn:Hs; [| discriminate].
  destruct (check_status_reported self receipt_id w s Hs) as (body & _ & ->).
  rewrite (failed_not_complete s Hf), Hf. reflexivity.
Qed.

(** More fuel does not change the outcome of a loop that ended. *)
Lemma wait_loop_more_fuel (self : Client) (receipt_id : string)
  (max_wait start_time : Z) (fuel : nat) :
  forall (w : World) (out : result json * World) (fuel' : nat),
    wait_loop fuel self receipt_id max_wait start_time w = Some out ->
    (fuel <= fuel')%nat ->
    wait_loop fuel' self receipt_id max_wait start_time w = Some out.
Proof.
  induction fuel as [| fuel IH]; intros w out fuel' Hrun Hle;
    [discriminate |].
  destruct fuel' as [| fuel']; [lia |].
  cbn [wait_loop] in *.
  destruct (clock w - start_time <? max_wait); [| exact Hrun].
  destruct (check_status self receipt_id w) as [[[receipt status] | e] w1];
    [| exact Hrun].
  destruct (Py.eq_str status "complete"); [exact Hrun |].
  destruct (Py.eq_str status "failed"); [exact Hrun |].
  apply IH; [exact Hrun | lia].
Qed.

Lemma polled_facts (self : Client) (receipt_id : string) (k : nat) :
  forall w : World,
    remote (polled self receipt_id k w) = remote w
    /\ sent (polled self receipt_id k w) = (sent w + k)%nat
    /\ clock (polled self receipt_id k w)
       = clock w + rounds_time (remote w) (sent w) k.
Proof.
  induction k as [| k IH]; intros w; cbn [polled rounds_time].
  - repeat split; [lia | lia].
  - destruct (IH (slept 2 (exchanged (poll_request self receipt_id) w)))
      as (Hr & Hs & Hc).
    rewrite Hr, Hs, Hc. cbn. repeat split; lia.
Qed.

Lemma rounds_time_lower (remote : nat -> Exchange) (k : nat) :
  forall from : nat, 2 * Z.of_nat k <= rounds_time remote from k.
Proof.
  induction k as [| k IH]; intros from; cbn [rounds_time]; [lia |].
  specialize (IH (S from)). lia.
Qed.

(** C5: when the status checks report [pending, pending, complete] (and
    the max-wait bound is not reached before the third check), the call
    returns the payload of the check that reported complete, after exactly
    two 2-second waits. *)
Theorem poll_returns_complete_payload (self : Client) (receipt_id : string)
  (max_wait : Z) (w : World) (receipt : json) :
  reports_pending (reply (remote w (sent w))) = true ->
  reports_pending (reply (remote w (S (sent w)))) = true ->
  reports_complete (reply (remote w (S (S (sent w))))) = true ->
  payload (reply (remote w (S (S (sent w))))) = Some receipt ->
  Z.of_nat (latency (remote w (sent w))) + 2
  + Z.of_nat (latency (remote w (S (sent w)))) + 2 < max_wait ->
  exists w',
    wait_for_processing self receipt_id max_wait w = Some (Ok receipt, w')
    /\ log w'
       = (log w ++ [Sent (poll_request self receipt_id); Slept 2;
                    Sent (poll_request self receipt_id); Slept 2;
                    Sent (poll_request self receipt_id)])%list.
Proof.
  intros H0 H1 H2 Hbody Htime.
  set (p := poll_request self receipt_id).
  exists (exchanged p (slept 2 (exchanged p (slept 2 (exchanged p w))))).
  split.
  - unfold wait_for_processing.
    apply (wait_loop_more_fuel self receipt_id max_wait (clock w) 3);
      [| unfold wait_rounds; lia].
    rewrite wait_loop_pending by (first [exact H0 | lia]).
    rewrite wait_loop_pending by (first [exact H1 | cbn; lia]).
    apply wait_loop_complete; [cbn; lia | exact H2 | exact Hbody].
  - cbn. rewrite <- !app_assoc. reflexivity.
Qed.

Lemma poll_returns_complete_payload_witness :
  exists w',
    wait_for_processing demo_client "r1" 30
      (fresh_world (scripted 1 [status_reply "pending"; status_reply "pending"]
                      (status_reply "complete")))
    = Some (Ok (JObj [("success", JBool true);
                      ("data", JObj [("id", JStr "r1");
                                     ("processingStatus", JStr "complete")])]),
            w')
    /\ log w'
       = [Sent (poll_request demo_client "r1"); Slept 2;
          Sent (poll_request demo_client "r1"); Slept 2;
          Sent (poll_request demo_client "r1")].
Proof.
  apply (poll_returns_complete_payload demo_client "r1" 30
           (fresh_world (scripted 1 [status_reply "pending"; status_reply "pending"]
                           (status_reply "complete"))));
    try reflexivity.
Defined.

Lemma wait_loop_reaches_failed (self : Client) (receipt_id : string)
  (max_wait start_time : Z) (k : nat) :
  forall (fuel : nat) (w : World),
    (k < fuel)%nat ->
    (forall j, (j < k)%nat ->
               reports_pending (reply (remote w (sent w + j))) = true) ->
    reports_failed (reply (remote w (sent w + k))) = true ->
    clock w - start_time + rounds_time (remote w) (sent w) k < max_wait ->
    wait_loop fuel self receipt_id max_wait start_time w
    = Some (Raise (APIError processing_failed),
            exchanged (poll_request self receipt_id)
                      (polled self receipt_id k w)).
Proof.
  induction k as [| k IH]; intros fuel w Hfuel Hpending Hfailed Htime;
    (destruct fuel as [| fuel]; [lia |]).
  - cbn [rounds_time] in Htime. rewrite Nat.add_0_r in Hfailed.
    cbn [polled]. apply wait_loop_failed; [lia | exact Hfailed].
  - pose proof (rounds_time_lower (remote w) (S k) (sent w)) as Hlow.
    rewrite wait_loop_pending;
      [| lia | unfold next_reply; rewrite <- (Nat.add_0_r (sent w));
               apply Hpending; lia].
    cbn [polled]. apply IH.
    + lia.
    + intros j Hj. cbn [remote sent slept exchanged].
      replace (S (sent w) + j)%nat with (sent w + S j)%nat by lia.
      apply Hpending. lia.
    + cbn [remote sent slept exchanged].
      replace (S (sent w) + k)%nat with (sent w + S k)%nat by lia.
      exact Hfailed.
    + cbn [remote sent clock slept exchanged].
      cbn [rounds_time] in Htime. lia.
Qed.

(** C6: when the status checks report pending [k] times and then failed
    (and the max-wait bound is not reached before that check), the call
    fails with the processing-failed error right after the check that
    reported failed: that check is the last thing the call does, so no
    further poll and no further wait follows. *)
Theorem poll_fails_at_first_failed (self : Client) (receipt_id : string)
  (max_wait : Z) (w : World) (k : nat) :
  (forall j, (j < k)%nat ->
             reports_pending (reply (remote w (sent w + j))) = true) ->
  reports_failed (reply (remote w (sent w + k))) = true ->
  rounds_time (remote w) (sent w) k < max_wait ->
  wait_for_processing self receipt_id max_wait w
  = Some (Raise (APIError processing_failed),
          exchanged (poll_request self receipt_id) (polled self receipt_id k w))
  /\ sent (exchanged (poll_request self receipt_id) (polled self receipt_id k w))
     = S (sent w + k)
  /\ log (exchanged (poll_request self receipt_id) (polled self receipt_id k w))
     = (log (polled self receipt_id k w)
        ++ [Sent (poll_request self receipt_id)])%list.
Proof.
  intros Hpending Hfailed Htime.
  pose proof (rounds_time_lower (remote w) k (sent w)) as Hlow.
  destruct (polled_facts self receipt_id k w) as (_ & Hsent & _).
  split; [| split; [cbn; rewrite Hsent; reflexivity | reflexivity]].
  unfold wait_for_processing.
  apply wait_loop_reaches_failed;
    [unfold wait_rounds; lia | exact Hpending | exact Hfailed | lia].
Qed.

Lemma poll_fails_at_first_failed_witness :
  wait_for_processing demo_client "r1" 30
    (fresh_world (scripted 1 [status_reply "pending"; status_reply "failed"]
                    (status_reply "complete")))
  = Some (Raise (APIError processing_failed),
          exchanged (poll_request demo_client "r1")
            (polled demo_client "r1" 1
               (fresh_world (scripted 1 [status_reply "pending";
                                         status_reply "failed"]
                               (status_reply "complete")))))
  /\ sent (exchanged (poll_request demo_client "r1")
             (polled demo_client "r1" 1
                (fresh_world (scripted 1 [status_reply "pending";
                                          status_reply "failed"]
                                (status_reply "complete")))))
     = 2%nat
  /\ log (exchanged (poll_request demo_client "r1")
            (polled demo_client "r1" 1
               (fresh_world (scripted 1 [status_reply "pending";
                                         status_reply "failed"]
                               (status_reply "complete")))))
     = [Sent (poll_request demo_client "r1"); Slept 2;
        Sent (poll_request demo_client "r1")].
Proof.
  apply (poll_fails_at_first_failed demo_client "r1" 30
           (fresh_world (scripted 1 [status_reply "pending"; status_reply "failed"]
                           (status_reply "complete"))) 1).
  - intros j Hj. destruct j as [| j]; [reflexivity | lia].
  - reflexivity.
  - reflexivity.
Defined.

(** The loop ends within [S fuel] evaluations of its condition when at
    most [2 * fuel] seconds remain before the bound. *)
Lemma wait_loop_ends (self : Client) (receipt_id : string)
  (max_wait start_time : Z) (fuel : nat) :
  forall w : World,
    max_wait - (clock w - start_time) <= 2 * Z.of_nat fuel ->
    exists out,
      wait_loop (S fuel) self receipt_id max_wait start_time w = Some out.
Proof.
  induction fuel as [| fuel IH]; intros w Hleft.
  - eexists. apply wait_loop_timeout. lia.
  - cbn [wait_loop].
    destruct (clock w - start_time <? max_wait) eqn:Hcond; [| eauto].
    pose proof (check_status_world self receipt_id w) as Hw.
    destruct (check_status self receipt_id w) as [[[receipt status] | e] w1];
      [| eauto].
    cbn [snd] in Hw. subst w1.
    destruct (Py.eq_str status "complete"); [eauto |].
    destruct (Py.eq_str status "failed"); [eauto |].
    change (exists out,
               wait_loop (S fuel) self receipt_id max_wait start_time
                 (slept 2 (exchanged (poll_request self receipt_id) w))
               = Some out).
    apply IH. cbn [clock slept exchanged]. lia.
Qed.

(** While every status check reports pending, the loop goes on until the
    elapsed time reaches the bound, and then raises the timeout error. *)
Lemma wait_loop_times_out (self : Client) (receipt_id : string)
  (max_wait start_time : Z) (fuel : nat) :
  forall w : World,
    max_wait - (clock w - start_time) <= 2 * Z.of_nat fuel ->
    (forall n, (sent w <= n)%nat ->
               reports_pending (reply (remote w n)) = true) ->
    exists k,
      wait_loop (S fuel) self receipt_id max_wait start_time w
      = Some (Raise (APIError processing_timeout), polled self receipt_id k w)
      /\ max_wait <= clock (polled self receipt_id k w) - start_time
      /\ (forall j, (j < k)%nat ->
                    clock (polled self receipt_id j w) - start_time < max_wait).
Proof.
  induction fuel as [| fuel IH]; intros w Hleft Hpending.
  - exists 0%nat. cbn [polled]. split; [apply wait_loop_timeout; lia |].
    split; [lia | intros j Hj; lia].
  - destruct (Z.lt_ge_cases (clock w - start_time) max_wait) as [Hlt | Hge].
    + rewrite wait_loop_pending;
        [| exact Hlt | apply Hpending; lia].
      destruct (IH (slept 2 (exchanged (poll_request self receipt_id) w)))
        as (k & Hrun & Hreach & Hbefore).
      * cbn [clock slept exchanged]. lia.
      * intros n Hn. cbn [remote sent slept exchanged] in *.
        apply Hpending. lia.
      * exists (S k). cbn [polled]. split; [exact Hrun |].
        split; [exact Hreach |].
        intros j Hj. destruct j as [| j]; [exact Hlt |].
        cbn [polled]. apply Hbefore. lia.
    + exists 0%nat. cbn [polled]. split; [apply wait_loop_timeout; lia |].
      split; [lia | intros j Hj; lia].
Qed.

(** C7: the poll loop terminates for every behaviour of the remote: the
    call yields an outcome, the same for any larger number of rounds
    allowed; and when every status check reports pending, that outcome is
    the timeout error, raised at the first evaluation of the loop condition
    (before the first check, or after a 2-second wait) at which the elapsed
    time has reached the max-wait bound. *)
Theorem poll_terminates_and_times_out (self : Client) (receipt_id : string)
  (max_wait : Z) (w : World) :
  (exists out,
      wait_for_processing self receipt_id max_wait w = Some out
      /\ forall fuel, (wait_rounds max_wait <= fuel)%nat ->
                      wait_loop fuel self receipt_id max_wait (clock w) w
                      = Some out)
  /\ ((forall n, (sent w <= n)%nat ->
                 reports_pending (reply (remote w n)) = true) ->
      exists k,
        wait_for_processing self receipt_id max_wait w
        = Some (Raise (APIError processing_timeout), polled self receipt_id k w)
        /\ max_wait <= clock (polled self receipt_id k w) - clock w
        /\ (forall j, (j < k)%nat ->
                      clock (polled self receipt_id j w) - clock w < max_wait)).
Proof.
  split.
  - destruct (wait_loop_ends self receipt_id max_wait (clock w)
                (Z.to_nat max_wait) w ltac:(lia)) as [out Hout].
    exists out. split; [exact Hout |].
    intros fuel Hfuel.
    apply (wait_loop_more_fuel _ _ _ _ _ _ _ _ Hout Hfuel).
  - intros Hpending.
    apply (wait_loop_times_out self receipt_id max_wait (clock w)
             (Z.to_nat max_wait) w ltac:(lia) Hpending).
Qed.

Lemma poll_terminates_and_times_out_witness :
  exists k,
    wait_for_processing demo_client "r1" 5
      (fresh_world (scripted 1 [] (status_reply "pending")))
    = Some (Raise (APIError processing_timeout),
            polled demo_client "r1" k
              (fresh_world (scripted 1 [] (status_reply "pending"))))
    /\ 5 <= clock (polled demo_client "r1" k
                     (fresh_world (scripted 1 [] (status_reply "pending"))))
            - clock (fresh_world (scripted 1 [] (status_reply "pending")))
    /\ (forall j, (j < k)%nat ->
                  clock (polled demo_client "r1" j
                           (fresh_world (scripted 1 [] (status_reply "pending"))))
                  - clock (fresh_world (scripted 1 [] (status_reply "pending")))
                  < 5).
Proof.
  apply (proj2 (poll_terminates_and_times_out demo_client "r1" 5
                  (fresh_world (scripted 1 [] (status_reply "pending"))))).
  intros n Hn. unfold scripted; cbn.
  destruct n as [| n]; [reflexivity | destruct n; reflexivity].
Defined.

(** ** Chunked upload *)

Lemma request_api_failure (self : Client) (method endpoint : string)
  (kwargs : Kwargs) (w : World) (e : MataresitAPIError) :
  api_failure (next_reply w) = Some e ->
  _request self method endpoint kwargs w
  = (Raise (APIError e), exchanged (request_of self method endpoint kwargs) w).
Proof.
  destruct (next_reply w) as [why | status [body | why]] eqn:Hreply; cbn.
  - intros [= <-]. apply (request_transport_error _ _ _ _ _ _ Hreply).
  - destruct body; try discriminate.
    destruct (ok status) eqn:Hok; [discriminate |].
    intros [= <-]. apply (request_http_error _ _ _ _ _ _ _ Hreply Hok).
  - intros [= <-]. unfold next_reply in Hreply.
    unfold _request, bind, session_request; cbn. rewrite Hreply. reflexivity.
Qed.

Lemma batch_lists_inv (t : Transport) (cs es : list json) :
  batch_lists t = Some (cs, es) ->
  exists status body data created errors,
    t = Response status (Parsed body)
    /\ ok status = true
    /\ getitem body "data" = Ok data
    /\ getitem data "created" = Ok created
    /\ getitem data "errors" = Ok errors
    /\ iterate created = Ok cs
    /\ iterate errors = Ok es.
Proof.
  destruct t as [why | status [body | why]]; cbn; try discriminate.
  destruct (ok status) eqn:Hok; [| discriminate].
  destruct (getitem body "data") as [data | e] eqn:Hdata; [| discriminate].
  destruct (getitem data "created") as [created | e] eqn:Hc; [| discriminate].
  destruct (getitem data "errors") as [errors | e] eqn:He; [| discriminate].
  destruct (iterate created) as [cs0 | e] eqn:Hcs; [| discriminate].
  destruct (iterate errors) as [es0 | e] eqn:Hes; [| discriminate].
  intros [= <- <-]. exists status, body, data, created, errors. auto 10.
Qed.

(** The pause condition of the loop body, in terms of chunk numbers. *)
Lemma pause_condition (total_receipts batch_size : Z) (j : nat) :
  0 < batch_size ->
  (Z.of_nat j * batch_size + batch_size <? total_receipts)
  = (S j <? chunk_count total_receipts batch_size)%nat.
Proof.
  intros Hb. unfold chunk_count.
  set (q := (total_receipts + batch_size - 1) / batch_size).
  pose proof (Z.div_mod (total_receipts + batch_size - 1) batch_size
                ltac:(lia)) as Hdiv.
  pose proof (Z.mod_pos_bound (total_receipts + batch_size - 1) batch_size Hb)
    as Hmod.
  fold q in Hdiv.
  destruct (Z.ltb_spec (Z.of_nat j * batch_size + batch_size) total_receipts)
    as [Hlt | Hge]; symmetry.
  - apply Nat.ltb_lt. nia.
  - apply Nat.ltb_ge. nia.
Qed.

Lemma chunk_offsets_positive (total_receipts batch_size : Z) :
  0 < batch_size ->
  chunk_offsets total_receipts batch_size
  = Ok (map (fun j => Z.of_nat j * batch_size)
            (seq 0 (chunk_count total_receipts batch_size))).
Proof.
  intros Hb. unfold chunk_offsets, Py.range_step, chunk_count.
  replace (batch_size =? 0) with false by (symmetry; apply Z.eqb_neq; lia).
  replace (batch_size <? 0) with false by (symmetry; apply Z.ltb_ge; lia).
  replace (total_receipts - 0 + batch_size - 1)
    with (total_receipts + batch_size - 1) by lia.
  reflexivity.
Qed.

(** One round of the upload loop on a reply it copes with. *)
Lemma upload_chunk_run (self : Client) (receipts : list Receipt)
  (batch_size : Z) (successful failed : list json) (j : nat) (w : World)
  (cs es : list json) :
  0 < batch_size ->
  chunk_lists (Z.of_nat j + 1) (next_reply w) = Some (cs, es) ->
  upload_chunk self receipts batch_size (successful, failed)
               (Z.of_nat j * batch_size) w
  = (Ok ((successful ++ cs)%list, (failed ++ es)%list),
     paused (S j <? chunk_count (Z.of_nat (List.length receipts)) batch_size)%nat
            (exchanged (batch_request self (chunk receipts batch_size j)) w)).
Proof.
  intros Hb Hlists. unfold upload_chunk.
  rewrite Z.div_mul by lia. rewrite (pause_condition _ _ _ Hb).
  unfold chunk_lists in Hlists.
  unfold bind at 1. unfold try_except, create_receipts_batch.
  fold (chunk receipts batch_size j).
  destruct (api_failure (next_reply w)) as [e |] eqn:Hfail.
  - injection Hlists as <- <-.
    unfold bind at 1. rewrite (request_api_failure _ _ _ _ _ _ Hfail).
    rewrite app_nil_r. unfold ret, failure_entry.
    destruct (S j <? _)%nat; reflexivity.
  - destruct (batch_lists_inv _ _ _ Hlists)
      as (status & body & data & created & errors
          & Hreply & Hok & Hdata & Hc & He & Hcs & Hes).
    unfold bind at 1. rewrite (request_success _ _ _ _ _ _ _ Hreply Hok).
    unfold batch_items, bind, lift, ret.
    rewrite Hdata, Hc, Hcs, He, Hes.
    destruct (S j <? _)%nat; reflexivity.
Qed.

Lemma handled_lists (t : Transport) (batch_num : Z) :
  handled t = true ->
  exists cs es, chunk_lists batch_num t = Some (cs, es).
Proof.
  unfold handled, chunk_lists.
  destruct (api_failure t) as [e |]; [eauto |].
  destruct (batch_lists t) as [[cs es] |]; [eauto | discriminate].
Qed.

Lemma paused_facts (pause : bool) (r : Request) (w : World) :
  remote (paused pause (exchanged r w)) = remote w
  /\ sent (paused pause (exchanged r w)) = S (sent w)
  /\ log (paused pause (exchanged r w))
     = (log w ++ Sent r :: (if pause then [Slept 1] else []))%list.
Proof.
  destruct pause; cbn; repeat split.
  rewrite <- app_assoc. reflexivity.
Qed.

(** The upload loop from chunk [a] on, when every reply still to come is
    one the loop body copes with. *)
Lemma upload_loop_run (self : Client) (receipts : list Receipt)
  (batch_size : Z) (w0 : World) :
  0 < batch_size ->
  (forall j,
      (j < chunk_count (Z.of_nat (List.length receipts)) batch_size)%nat ->
      handled (reply (remote w0 (sent w0 + j))) = true) ->
  forall (n a : nat) (w : World) (successful failed : list json),
    (a + n = chunk_count (Z.of_nat (List.length receipts)) batch_size)%nat ->
    remote w = remote w0 ->
    sent w = (sent w0 + a)%nat ->
    exists w',
      upload_loop self receipts batch_size
                  (map (fun j => Z.of_nat j * batch_size) (seq a n))
                  (successful, failed) w
      = (Ok ((successful ++ flat_map (chunk_created w0) (seq a n))%list,
             (failed ++ flat_map (chunk_failed w0) (seq a n))%list), w')
      /\ remote w' = remote w0
      /\ sent w' = (sent w0 + a + n)%nat
      /\ log w'
         = (log w
            ++ flat_map
                 (chunk_events self receipts batch_size
                    (chunk_count (Z.of_nat (List.length receipts)) batch_size))
                 (seq a n))%list.
Proof.
  intros Hb Hall. induction n as [| n IH];
    intros a w successful failed Hcount Hremote Hsent.
  - exists w. cbn. rewrite !app_nil_r. repeat split; [exact Hremote | lia].
  - assert (Hj : (a < chunk_count (Z.of_nat (List.length receipts)) batch_size)%nat)
      by lia.
    destruct (handled_lists _ (Z.of_nat a + 1) (Hall a Hj)) as (cs & es & Hlists).
    assert (Hnext : chunk_lists (Z.of_nat a + 1) (next_reply w) = Some (cs, es)).
    { unfold next_reply. rewrite Hremote, Hsent. exact Hlists. }
    cbn [seq map upload_loop flat_map]. unfold bind at 1.
    rewrite (upload_chunk_run _ _ _ _ _ _ _ _ _ Hb Hnext).
    set (pause := (S a <? _)%nat).
    set (r := batch_request self (chunk receipts batch_size a)).
    destruct (paused_facts pause r w) as (Hr & Hs & Hl).
    destruct (IH (S a) (paused pause (exchanged r w))
                 (successful ++ cs)%list (failed ++ es)%list)
      as (w' & Hrun & Hremote' & Hsent' & Hlog'); [lia | congruence | lia |].
    assert (Hcs : chunk_created w0 a = cs)
      by (unfold chunk_created; rewrite Hlists; reflexivity).
    assert (Hes : chunk_failed w0 a = es)
      by (unfold chunk_failed; rewrite Hlists; reflexivity).
    exists w'. rewrite Hrun, Hcs, Hes.
    rewrite <- !app_assoc. split; [reflexivity |].
    split; [exact Hremote' |]. split; [lia |].
    rewrite Hlog', Hl. unfold chunk_events at 2. fold pause. fold r.
    rewrite <- !app_assoc. reflexivity.
Qed.

(** The whole upload, when every reply is one the loop body copes with. *)
Lemma bulk_upload_run (self : Client) (receipts : list Receipt)
  (batch_size : Z) (w : World) :
  0 < batch_size ->
  (forall j,
      (j < chunk_count (Z.of_nat (List.length receipts)) batch_size)%nat ->
      handled (reply (remote w (sent w + j))) = true) ->
  exists w',
    bulk_upload_with_progress self receipts batch_size w
    = (Ok (mkSummary
             (Z.of_nat (List.length receipts))
             (Z.of_nat (List.length
                (flat_map (chunk_created w)
                   (seq 0 (chunk_count (Z.of_nat (List.length receipts))
                                       batch_size)))))
             (Z.of_nat (List.length
                (flat_map (chunk_failed w)
                   (seq 0 (chunk_count (Z.of_nat (List.length receipts))
                                       batch_size)))))
             (flat_map (chunk_created w)
                (seq 0 (chunk_count (Z.of_nat (List.length receipts))
                                    batch_size)))
             (flat_map (chunk_failed w)
                (seq 0 (chunk_count (Z.of_nat (List.length receipts))
                                    batch_size)))),
       w')
    /\ sent w'
       = (sent w + chunk_count (Z.of_nat (List.length receipts)) batch_size)%nat
    /\ log w' = (log w ++ upload_events self receipts batch_size)%list.
Proof.
  intros Hb Hall.
  destruct (upload_loop_run self receipts batch_size w Hb Hall
              (chunk_count (Z.of_nat (List.length receipts)) batch_size)
              0%nat w [] [] eq_refl eq_refl ltac:(lia))
    as (w' & Hrun & _ & Hsent & Hlog).
  exists w'. unfold bulk_upload_with_progress, bind, lift.
  rewrite (chunk_offsets_positive _ _ Hb), Hrun.
  cbn [app]. split; [reflexivity |].
  split; [rewrite Hsent; lia | exact Hlog].
Qed.

(** C8: the upload sends one request per chunk and sleeps 1 second after
    every chunk except the last (when no reply makes the loop abort with a
    builtin exception); for 11 receipts and batch size 5 that is exactly 3
    chunks, of sizes 5, 5 and 1, with the delay after chunks 1 and 2 and
    none after chunk 3. *)
Theorem upload_pauses_between_chunks (self : Client) (receipts : list Receipt)
  (batch_size : Z) (w : World) :
  0 < batch_size ->
  (forall j,
      (j < chunk_count (Z.of_nat (List.length receipts)) batch_size)%nat ->
      handled (reply (remote w (sent w + j))) = true) ->
  log (snd (bulk_upload_with_progress self receipts batch_size w))
  = (log w ++ upload_events self receipts batch_size)%list
  /\ (List.length receipts = 11%nat ->
      batch_size = 5 ->
      upload_events self receipts batch_size
      = [Sent (batch_request self (firstn 5 receipts)); Slept 1;
         Sent (batch_request self (firstn 5 (skipn 5 receipts))); Slept 1;
         Sent (batch_request self (skipn 10 receipts))]
      /\ List.length (firstn 5 receipts) = 5%nat
      /\ List.length (firstn 5 (skipn 5 receipts)) = 5%nat
      /\ List.length (skipn 10 receipts) = 1%nat).
Proof.
  intros Hb Hall. split.
  - destruct (bulk_upload_run self receipts batch_size w Hb Hall)
      as (w' & -> & _ & Hlog).
    exact Hlog.
  - intros Hlen ->.
    do 11 (destruct receipts as [| ? receipts]; [discriminate |]).
    destruct receipts; [| discriminate].
    repeat split.
Qed.

Lemma upload_pauses_between_chunks_witness :
  log (snd (bulk_upload_with_progress demo_client (repeat sample_receipt 11) 5
              (fresh_world (scripted 0 [] (batch_reply [JStr "ok"] [])))))
  = upload_events demo_client (repeat sample_receipt 11) 5
  /\ upload_events demo_client (repeat sample_receipt 11) 5
     = [Sent (batch_request demo_client (repeat sample_receipt 5)); Slept 1;
        Sent (batch_request demo_client (repeat sample_receipt 5)); Slept 1;
        Sent (batch_request demo_client (repeat sample_receipt 1))].
Proof.
  destruct (upload_pauses_between_chunks demo_client (repeat sample_receipt 11)
              5 (fresh_world (scripted 0 [] (batch_reply [JStr "ok"] []))))
    as [Hlog Heleven].
  - reflexivity.
  - intros j Hj. unfold scripted; cbn.
    destruct j as [| j]; [reflexivity | destruct j; reflexivity].
  - split; [exact Hlog |].
    destruct (Heleven eq_refl eq_refl) as [Hevents _]. exact Hevents.
Defined.

(** C9: when the batch-create call of a chunk raises an API error, the
    loop body appends exactly one entry [{'error': message, 'batch': n}]
    to the failure list and the loop goes on with the chunks that follow;
    and when no reply makes the loop abort with a builtin exception, every
    chunk is uploaded and the operation returns the counts and the two
    itemized lists, in which a chunk that raised an API error accounts for
    no success and for exactly that one failure entry. *)
Theorem upload_records_chunk_failure (self : Client) (receipts : list Receipt)
  (batch_size : Z) (w : World) :
  0 < batch_size ->
  (forall j,
      (j < chunk_count (Z.of_nat (List.length receipts)) batch_size)%nat ->
      handled (reply (remote w (sent w + j))) = true) ->
  (forall (j : nat) (rest : list Z) (successful failed : list json)
          (w0 : World) (e : MataresitAPIError),
      api_failure (next_reply w0) = Some e ->
      upload_loop self receipts batch_size
                  (Z.of_nat j * batch_size :: rest) (successful, failed) w0
      = upload_loop self receipts batch_size rest
          (successful, (failed ++ [failure_entry e (Z.of_nat j + 1)])%list)
          (paused (S j <? chunk_count (Z.of_nat (List.length receipts))
                                      batch_size)%nat
                  (exchanged (batch_request self (chunk receipts batch_size j))
                             w0)))
  /\ (exists w',
         bulk_upload_with_progress self receipts batch_size w
         = (Ok (mkSummary
                  (Z.of_nat (List.length receipts))
                  (Z.of_nat (List.length
                     (flat_map (chunk_created w)
                        (seq 0 (chunk_count (Z.of_nat (List.length receipts))
                                            batch_size)))))
                  (Z.of_nat (List.length
                     (flat_map (chunk_failed w)
                        (seq 0 (chunk_count (Z.of_nat (List.length receipts))
                                            batch_size)))))
                  (flat_map (chunk_created w)
                     (seq 0 (chunk_count (Z.of_nat (List.length receipts))
                                         batch_size)))
                  (flat_map (chunk_failed w)
                     (seq 0 (chunk_count (Z.of_nat (List.length receipts))
                                         batch_size)))),
            w')
         /\ sent w'
            = (sent w
               + chunk_count (Z.of_nat (List.length receipts)) batch_size)%nat)
  /\ (forall (j : nat) (e : MataresitAPIError),
         api_failure (reply (remote w (sent w + j))) = Some e ->
         chunk_created w j = []
         /\ chunk_failed w j = [failure_entry e (Z.of_nat j + 1)]).
Proof.
  intros Hb Hall. split; [| split].
  - intros j rest successful failed w0 e Hfail.
    assert (Hlists : chunk_lists (Z.of_nat j + 1) (next_reply w0)
                     = Some ([], [failure_entry e (Z.of_nat j + 1)]))
      by (unfold chunk_lists; rewrite Hfail; reflexivity).
    cbn [upload_loop]. unfold bind at 1.
    rewrite (upload_chunk_run _ _ _ _ _ _ _ _ _ Hb Hlists).
    rewrite app_nil_r. reflexivity.
  - destruct (bulk_upload_run self receipts batch_size w Hb Hall)
      as (w' & Hrun & Hsent & _).
    exists w'. split; [exact Hrun | exact Hsent].
  - intros j e Hfail. unfold chunk_created, chunk_failed, chunk_lists.
    rewrite Hfail. split; reflexivity.
Qed.

Lemma upload_records_chunk_failure_witness :
  (exists w',
      bulk_upload_with_progress demo_client (repeat sample_receipt 11) 5
        (fresh_world (scripted 0
           [batch_reply [JStr "a"] []; RequestException "connection reset"]
           (batch_reply [JStr "b"] [JStr "bad date"])))
      = (Ok (mkSummary 11 2 2 [JStr "a"; JStr "b"]
               [failure_entry (transport_error "connection reset") 2;
                JStr "bad date"]),
         w')
      /\ sent w' = 3%nat)
  /\ upload_loop demo_client (repeat sample_receipt 11) 5 [5; 10] ([], [])
       (fresh_world (scripted 0 [] (RequestException "connection reset")))
     = upload_loop demo_client (repeat sample_receipt 11) 5 [10]
         ([], [failure_entry (transport_error "connection reset") 2])
         (paused true
            (exchanged (batch_request demo_client (repeat sample_receipt 5))
               (fresh_world (scripted 0 [] (RequestException "connection reset"))))).
Proof.
  destruct (upload_records_chunk_failure demo_client (repeat sample_receipt 11)
              5 (fresh_world (scripted 0
                   [batch_reply [JStr "a"] []; RequestException "connection reset"]
                   (batch_reply [JStr "b"] [JStr "bad date"]))))
    as (Hstep & Hrun & _).
  - reflexivity.
  - intros j Hj. unfold scripted; cbn.
    destruct j as [| [| [| j]]]; reflexivity.
  - split; [exact Hrun |].
    apply (Hstep 1%nat [10] [] []
             (fresh_world (scripted 0 [] (RequestException "connection reset")))
             (transport_error "connection reset")).
    reflexivity.
Defined.

(** * Further properties *)

(** ** The request executor, whatever the reply *)

Lemma ok_range (status : Z) :
  ok status = true <-> (status < 400 \/ 600 <= status).
Proof.
  unfold ok. rewrite negb_true_iff, andb_false_iff, Z.leb_gt, Z.ltb_ge. tauto.
Qed.

Lemma not_ok_range (status : Z) :
  ok status = false <-> 400 <= status < 600.
Proof.
  unfold ok. rewrite negb_false_iff, andb_true_iff, Z.leb_le, Z.ltb_lt. tauto.
Qed.


(** X2: [_request] returns a value exactly when the reply is a response
    with a JSON body and a status outside 400..599, and the value is that
    body; so a 1xx or 3xx response counts as success. *)
Theorem request_returns_iff (self : Client) (method endpoint : string)
  (kwargs : Kwargs) (w : World) (data : json) :
  fst (_request self method endpoint kwargs w) = Ok data
  <-> exists status,
        next_reply w = Response status (Parsed data)
        /\ (status < 400 \/ 600 <= status).
Proof.
  split.
  - unfold next_reply, _request, bind, session_request; cbn.
    destruct (reply (remote w (sent w))) as [why | status [body | why]];
      try (cbn; discriminate).
    destruct (ok status) eqn:Hok; cbn.
    + intros [= ->]. exists status. split; [reflexivity |].
      apply ok_range. exact Hok.
    + destruct body; try (cbn; discriminate).
      unfold lift, get.
      destruct (Py.lookup "message" fields); destruct (Py.lookup "code" fields);
        cbn; discriminate.
  - intros (status & Hreply & Hrange).
    apply ok_range in Hrange.
    rewrite (request_success _ _ _ _ _ _ _ Hreply Hrange). reflexivity.
Qed.

Lemma request_returns_iff_witness :
  fst (_request demo_client "GET" "/health" NoKwargs
         (fresh_world (scripted 0 [] (Response 304 (Parsed (JArr []))))))
  = Ok (JArr []).
Proof.
  apply (proj2 (request_returns_iff demo_client "GET" "/health" NoKwargs
                  (fresh_world (scripted 0 [] (Response 304 (Parsed (JArr [])))))
                  (JArr []))).
  exists 304. split; [reflexivity | left; lia].
Defined.

(** X3: every [MataresitAPIError] that [_request] raises is of one of two
    shapes: with a status code, which then is the response's status and
    lies in 400..599, the payload's [message] (or the generic one) and the
    payload's [code] (or [None]); or without status code and error code,
    with a message that starts with "Request failed: ". *)
Theorem request_error_shapes (self : Client) (method endpoint : string)
  (kwargs : Kwargs) (w : World) (e : MataresitAPIError) :
  fst (_request self method endpoint kwargs w) = Raise (APIError e) ->
  match status_code e with
  | Some status =>
      400 <= status < 600
      /\ exists fields,
           next_reply w = Response status (Parsed (JObj fields))
           /\ message e = field_or "message" (JStr "API request failed") fields
           /\ error_code e = field_or "code" JNull fields
  | None =>
      error_code e = JNull
      /\ exists why, message e = JStr ("Request failed: " ++ why)
  end.
Proof.
  unfold next_reply, _request, bind, session_request; cbn.
  destruct (reply (remote w (sent w))) as [why | status [body | why]]; cbn.
  - intros [= <-]. cbn. eauto.
  - destruct (ok status) eqn:Hok; cbn; [discriminate |].
    destruct body; try (cbn; discriminate).
    apply not_ok_range in Hok. unfold lift, get, field_or.
    destruct (Py.lookup "message" fields) eqn:Hm;
      destruct (Py.lookup "code" fields) eqn:Hc; cbn;
      intros [= <-]; cbn; (split; [exact Hok |]);
      exists fields; rewrite ?Hm, ?Hc; auto.
  - intros [= <-]. cbn. eauto.
Qed.

Lemma request_error_shapes_witness :
  400 <= 404 < 600
  /\ exists fields,
       next_reply (fresh_world (scripted 0 []
          (Response 404 (Parsed (JObj [("message", JStr "Not found");
                                       ("code", JStr "NOT_FOUND")])))))
       = Response 404 (Parsed (JObj fields))
       /\ JStr "Not found"
          = field_or "message" (JStr "API request failed") fields
       /\ JStr "NOT_FOUND" = field_or "code" JNull fields.
Proof.
  apply (request_error_shapes demo_client "GET" "/receipts/x" NoKwargs
           (fresh_world (scripted 0 []
              (Response 404 (Parsed (JObj [("message", JStr "Not found");
                                           ("code", JStr "NOT_FOUND")])))))
           (mkAPIError (JStr "Not found") (Some 404) (JStr "NOT_FOUND"))).
  reflexivity.
Defined.



(** ** The dicts the client posts *)

Lemma lookup_set_same (key : string) (v : json) (d : list (string * json)) :
  Py.lookup key (Py.set key v d) = Some v.
Proof.
  induction d as [| [k v0] d IH]; cbn.
  - rewrite String.eqb_refl. reflexivity.
  - destruct (String.eqb k key) eqn:Hk; cbn; rewrite Hk; [reflexivity | exact IH].
Qed.

Lemma lookup_set_other (key key' : string) (v : json)
  (d : list (string * json)) :
  String.eqb key key' = false ->
  Py.lookup key' (Py.set key v d) = Py.lookup key' d.
Proof.
  intros Hne. induction d as [| [k v0] d IH]; cbn.
  - rewrite Hne. reflexivity.
  - destruct (String.eqb k key) eqn:Hk; cbn.
    + apply String.eqb_eq in Hk. subst k. rewrite Hne. reflexivity.
    + rewrite IH. reflexivity.
Qed.

Lemma lookup_set_if_truthy_same (key : string) (value : option string)
  (d : list (string * json)) :
  Py.lookup key (set_if_truthy key value d)
  = match optional_field value with
    | Some x => Some x
    | None => Py.lookup key d
    end.
Proof.
  unfold set_if_truthy, optional_field.
  destruct value as [s |]; [| reflexivity].
  destruct (Py.truthy (Some s)); [apply lookup_set_same | reflexivity].
Qed.

Lemma lookup_set_if_truthy_other (key key' : string) (value : option string)
  (d : list (string * json)) :
  String.eqb key key' = false ->
  Py.lookup key' (set_if_truthy key value d) = Py.lookup key' d.
Proof.
  intros Hne. unfold set_if_truthy.
  destruct value as [s |]; [| reflexivity].
  destruct (Py.truthy (Some s)); [apply lookup_set_other; exact Hne | reflexivity].
Qed.

(** X5: the dict [create_receipt] posts always has [merchant], [date],
    [total] and [currency] with the receipt's values, and has
    [paymentMethod], [category], [fullText] and [teamId] exactly when the
    corresponding field is a non-empty string (an empty string is left out
    like [None]). *)
Theorem receipt_data_fields (receipt : Receipt) :
  Py.lookup "merchant" (receipt_data receipt) = Some (JStr (merchant receipt))
  /\ Py.lookup "date" (receipt_data receipt) = Some (JStr (date receipt))
  /\ Py.lookup "total" (receipt_data receipt) = Some (JFloat (total receipt))
  /\ Py.lookup "currency" (receipt_data receipt)
     = Some (JStr (currency receipt))
  /\ Py.lookup "paymentMethod" (receipt_data receipt)
     = optional_field (payment_method receipt)
  /\ Py.lookup "category" (receipt_data receipt)
     = optional_field (category receipt)
  /\ Py.lookup "fullText" (receipt_data receipt)
     = optional_field (full_text receipt)
  /\ Py.lookup "teamId" (receipt_data receipt)
     = optional_field (team_id receipt).
Proof.
  unfold receipt_data.
  repeat split;
    repeat first
      [ rewrite lookup_set_if_truthy_same
      | rewrite lookup_set_if_truthy_other by reflexivity ];
    try reflexivity;
    match goal with
    | |- match optional_field ?v with _ => _ end = _ =>
        destruct (optional_field v); reflexivity
    end.
Qed.

(** X6: the dict [create_receipts_batch] builds for a receipt is the one
    [create_receipt] would post for the same receipt without its full text:
    a batch upload never sends [fullText]. *)
Theorem batch_drops_full_text (receipt : Receipt) :
  receipt_dict receipt = receipt_data (without_full_text receipt)
  /\ Py.lookup "fullText" (receipt_dict receipt) = None.
Proof.
  split; [reflexivity |].
  unfold receipt_dict.
  repeat rewrite lookup_set_if_truthy_other by reflexivity.
  reflexivity.
Qed.

Lemma lookup_absent (key : string) (d : list (string * json)) :
  ~ In key (keys d) -> Py.lookup key d = None.
Proof.
  induction d as [| [k v] d IH]; cbn; [reflexivity |].
  intros Hnot. destruct (String.eqb k key) eqn:Hk.
  - apply String.eqb_eq in Hk. tauto.
  - apply IH. tauto.
Qed.

(** [d.update(other)] for distinct keys in [other]: the keys of [other] win,
    the rest of [d] stays. *)
Lemma lookup_update (other : list (string * json)) :
  forall (d : list (string * json)) (key : string),
    NoDup (keys other) ->
    Py.lookup key (Py.update d other)
    = match Py.lookup key other with
      | Some v => Some v
      | None => Py.lookup key d
      end.
Proof.
  unfold Py.update.
  induction other as [| [k v] other IH]; intros d key Hnodup; cbn;
    [reflexivity |].
  inversion Hnodup as [| k0 ks Hnotin Hrest]; subst.
  rewrite (IH _ _ Hrest).
  destruct (String.eqb k key) eqn:Hk.
  - apply String.eqb_eq in Hk. subst k.
    rewrite (lookup_absent _ _ Hnotin). apply lookup_set_same.
  - rewrite (lookup_set_other _ _ _ _ Hk). reflexivity.
Qed.

(** X7: [search] posts a dict with the query under [query], the sources
    under [sources] exactly when the list is non-empty (an empty list is
    left out like [None]), and every extra option under its own key; the
    options are keyword arguments, so their keys are distinct and are
    neither [query] nor [sources]. *)
Theorem search_body (self : Client) (query : string)
  (sources : option (list string)) (options : list (string * json)) :
  NoDup (keys options) ->
  Py.lookup "query" options = None ->
  Py.lookup "sources" options = None ->
  search self query sources options
  = _request self "POST" "/search"
             (Json (JObj (search_data query sources options)))
  /\ Py.lookup "query" (search_data query sources options)
     = Some (JStr query)
  /\ Py.lookup "sources" (search_data query sources options)
     = match sources with
       | Some (s :: rest) => Some (JArr (map JStr (s :: rest)))
       | _ => None
       end
  /\ (forall key v,
         Py.lookup key options = Some v ->
         Py.lookup key (search_data query sources options) = Some v).
Proof.
  intros Hnodup Hq Hs. unfold search_data. split; [| split; [| split]].
  - unfold search. destruct sources as [[| s rest] |]; reflexivity.
  - rewrite (lookup_update _ _ _ Hnodup), Hq.
    destruct sources as [[| s rest] |]; reflexivity.
  - rewrite (lookup_update _ _ _ Hnodup), Hs.
    destruct sources as [[| s rest] |]; reflexivity.
  - intros key v Hkey. rewrite (lookup_update _ _ _ Hnodup), Hkey. reflexivity.
Qed.

Lemma search_body_witness :
  search demo_client "coffee expenses" (Some ["receipts"]) [("limit", JInt 5)]
  = _request demo_client "POST" "/search"
      (Json (JObj [("query", JStr "coffee expenses");
                   ("sources", JArr [JStr "receipts"]);
                   ("limit", JInt 5)]))
  /\ Py.lookup "query"
       (search_data "coffee expenses" (Some ["receipts"]) [("limit", JInt 5)])
     = Some (JStr "coffee expenses")
  /\ Py.lookup "sources"
       (search_data "coffee expenses" (Some ["receipts"]) [("limit", JInt 5)])
     = Some (JArr [JStr "receipts"])
  /\ (forall key v,
         Py.lookup key [("limit", JInt 5)] = Some v ->
         Py.lookup key
           (search_data "coffee expenses" (Some ["receipts"])
                        [("limit", JInt 5)])
         = Some v).
Proof.
  apply (search_body demo_client "coffee expenses" (Some ["receipts"])
           [("limit", JInt 5)]).
  - repeat constructor. intros [].
  - reflexivity.
  - reflexivity.
Defined.

(** ** Retry with backoff, for any retry limit *)

Lemma sleeps_app (l1 l2 : list Event) :
  sleeps (l1 ++ l2) = (sleeps l1 ++ sleeps l2)%list.
Proof.
  induction l1 as [| [r | seconds] l1 IH]; cbn; [reflexivity | exact IH |].
  rewrite IH. reflexivity.
Qed.

Lemma backoff_total (m : Z) (n : nat) :
  forall a : Z,
    0 <= a ->
    Z.of_nat n = m - a ->
    fold_right Z.add 0 (map (fun k => 2 ^ k) (Py.range a m)) = 2 ^ m - 2 ^ a.
Proof.
  induction n as [| n IH]; intros a Ha Hn.
  - rewrite range_nil by lia. replace m with a by lia. cbn. lia.
  - rewrite range_cons by lia. cbn [map fold_right].
    rewrite (IH (a + 1)) by lia.
    rewrite Z.pow_add_r by lia. lia.
Qed.

(** The loop against a remote that always answers 429, from attempt [a]. *)
Lemma retry_loop_all_rate_limited (self : Client) (method endpoint : string)
  (kwargs : Kwargs) (n : nat) :
  forall (a : Z) (w : World),
    Z.of_nat n = max_retries self - a ->
    (forall i, rate_limit_reply (reply (remote w i)) = true) ->
    sent (snd (retry_loop self method endpoint kwargs
                 (Py.range a (max_retries self + 1)) w))
    = (sent w + S n)%nat
    /\ sleeps (log (snd (retry_loop self method endpoint kwargs
                           (Py.range a (max_retries self + 1)) w)))
       = (sleeps (log w)
          ++ map (fun k => 2 ^ k) (Py.range a (max_retries self)))%list
    /\ exists fields,
         reply (remote w (sent w + n))
         = Response 429 (Parsed (JObj fields))
         /\ fst (retry_loop self method endpoint kwargs
                   (Py.range a (max_retries self + 1)) w)
            = Raise (APIError (http_error 429 fields)).
Proof.
  induction n as [| n IH]; intros a w Hn Hall; rewrite range_cons by lia.
  - destruct (rate_limit_reply_inv _ (Hall (sent w))) as [fields Hreply].
    rewrite (retry_loop_last self method endpoint kwargs a _ w
               (APIError (http_error 429 fields)));
      [| rewrite (request_rate_limited _ _ _ _ _ _ Hreply); reflexivity | lia].
    rewrite (request_rate_limited _ _ _ _ _ _ Hreply).
    rewrite (range_nil a) by lia. cbn [fst snd exchanged sent log map].
    rewrite sleeps_app, Nat.add_0_r. cbn [sleeps].
    split; [lia |]. split; [reflexivity |].
    exists fields. split; [exact Hreply | reflexivity].
  - rewrite retry_loop_backoff by (first [apply Hall | lia]).
    set (w2 := slept _ _).
    destruct (IH (a + 1) w2 ltac:(lia) Hall) as (Hsent & Hsleeps & fields & Hreply & Hres).
    rewrite Hsent, Hsleeps. rewrite (range_cons a) by lia.
    unfold w2 at 1 2. cbn [slept exchanged sent log map].
    rewrite !sleeps_app. cbn [sleeps]. rewrite <- !app_assoc.
    split; [lia |]. split; [reflexivity |].
    exists fields. split; [| exact Hres].
    rewrite <- Hreply. unfold w2. cbn [slept exchanged sent remote].
    f_equal. f_equal. lia.
Qed.

(** X8: against a remote that answers every request with 429, a wrapper
    with max-retries [m >= 1] sends exactly [m] requests, sleeps
    [2^1, ..., 2^(m-1)] seconds between them ([2^m - 2] seconds in all) and
    raises the 429 error of the last reply. *)
Theorem retry_backoff_schedule (self : Client) (method endpoint : string)
  (kwargs : Kwargs) (w : World) :
  1 <= max_retries self ->
  (forall i, rate_limit_reply (reply (remote w i)) = true) ->
  sent (snd (_request_with_retry self method endpoint kwargs w))
  = (sent w + Z.to_nat (max_retries self))%nat
  /\ sleeps (log (snd (_request_with_retry self method endpoint kwargs w)))
     = (sleeps (log w)
        ++ map (fun k => 2 ^ k) (Py.range 1 (max_retries self)))%list
  /\ fold_right Z.add 0
       (map (fun k => 2 ^ k) (Py.range 1 (max_retries self)))
     = 2 ^ max_retries self - 2
  /\ exists fields,
       reply (remote w (sent w + Z.to_nat (max_retries self - 1)))
       = Response 429 (Parsed (JObj fields))
       /\ fst (_request_with_retry self method endpoint kwargs w)
          = Raise (APIError (http_error 429 fields)).
Proof.
  intros Hmax Hall. unfold _request_with_retry.
  destruct (retry_loop_all_rate_limited self method endpoint kwargs
              (Z.to_nat (max_retries self - 1)) 1 w ltac:(lia) Hall)
    as (Hsent & Hsleeps & Hlast).
  split; [rewrite Hsent; lia |]. split; [exact Hsleeps |].
  split; [| exact Hlast].
  rewrite (backoff_total (max_retries self)
             (Z.to_nat (max_retries self - 1)) 1) by lia.
  reflexivity.
Qed.

Lemma retry_backoff_schedule_witness :
  sent (snd (_request_with_retry (mkClient "key" "https://api.example/v1" 5)
               "GET" "/health" NoKwargs (fresh_world always_429)))
  = 5%nat
  /\ sleeps (log (snd (_request_with_retry
                         (mkClient "key" "https://api.example/v1" 5)
                         "GET" "/health" NoKwargs (fresh_world always_429))))
     = [2; 4; 8; 16]
  /\ fold_right Z.add 0 (map (fun k => 2 ^ k) (Py.range 1 5)) = 30
  /\ exists fields,
       reply (always_429 4%nat) = Response 429 (Parsed (JObj fields))
       /\ fst (_request_with_retry (mkClient "key" "https://api.example/v1" 5)
                 "GET" "/health" NoKwargs (fresh_world always_429))
          = Raise (APIError (http_error 429 fields)).
Proof.
  apply (retry_backoff_schedule (mkClient "key" "https://api.example/v1" 5)
           "GET" "/health" NoKwargs (fresh_world always_429)).
  - cbn. lia.
  - intros i. unfold always_429, scripted; cbn.
    destruct i as [| i]; [reflexivity | destruct i; reflexivity].
Defined.

Lemma retry_loop_sent_bound (self : Client) (method endpoint : string)
  (kwargs : Kwargs) (attempts : list Z) :
  forall w : World,
    (sent w
     <= sent (snd (retry_loop self method endpoint kwargs attempts w))
     <= sent w + List.length attempts)%nat
    /\ remote (snd (retry_loop self method endpoint kwargs attempts w))
       = remote w.
Proof.
  induction attempts as [| attempt rest IH]; intros w.
  - cbn. split; [lia | reflexivity].
  - cbn [retry_loop List.length]. unfold try_except.
    pose proof (request_world self method endpoint kwargs w) as Hw.
    destruct (_request self method endpoint kwargs w) as [[a | [e | cls]] w1];
      cbn [snd] in Hw; subst w1; cbn [snd exchanged sent remote];
      try (split; [lia | reflexivity]).
    destruct (rate_limited e && (attempt <? max_retries self));
      [| cbn; split; [lia | reflexivity]].
    unfold bind, time_sleep.
    match goal with
    | |- context [retry_loop _ _ _ _ rest ?w2] =>
        destruct (IH w2) as [Hsent Hremote];
        set (out := retry_loop self method endpoint kwargs rest w2) in *
    end.
    cbn in Hsent, Hremote. split; [lia | exact Hremote].
Qed.

(** X9: whatever the remote answers, the wrapper never sends more than
    max-retries requests (none when max-retries is zero or negative), and
    every request it sends goes to the same remote. *)
Theorem retry_never_exceeds_limit (self : Client) (method endpoint : string)
  (kwargs : Kwargs) (w : World) :
  (sent w
   <= sent (snd (_request_with_retry self method endpoint kwargs w))
   <= sent w + Z.to_nat (max_retries self))%nat
  /\ remote (snd (_request_with_retry self method endpoint kwargs w))
     = remote w.
Proof.
  unfold _request_with_retry.
  destruct (retry_loop_sent_bound self method endpoint kwargs
              (Py.range 1 (max_retries self + 1)) w) as [Hsent Hremote].
  split; [| exact Hremote].
  assert (Hlen : List.length (Py.range 1 (max_retries self + 1))
                 = Z.to_nat (max_retries self))
    by (unfold Py.range; rewrite length_map, length_seq; lia).
  rewrite Hlen in Hsent. exact Hsent.
Qed.

(** ** Polling, at its edges *)

(** X10: with a max-wait of zero or less, [wait_for_processing] raises the
    timeout error at once, without a single status check. *)
Theorem poll_without_time_budget (self : Client) (receipt_id : string)
  (max_wait : Z) (w : World) :
  max_wait <= 0 ->
  wait_for_processing self receipt_id max_wait w
  = Some (Raise (APIError processing_timeout), w).
Proof.
  intros Hmax. unfold wait_for_processing, wait_rounds.
  apply wait_loop_timeout. lia.
Qed.

Lemma poll_without_time_budget_witness :
  wait_for_processing demo_client "r1" 0
    (fresh_world (scripted 0 [] (status_reply "complete")))
  = Some (Raise (APIError processing_timeout),
          fresh_world (scripted 0 [] (status_reply "complete"))).
Proof.
  apply (poll_without_time_budget demo_client "r1" 0
           (fresh_world (scripted 0 [] (status_reply "complete")))).
  lia.
Defined.

Lemma wait_loop_sent_bound (self : Client) (receipt_id : string)
  (max_wait start_time : Z) (fuel : nat) :
  forall (w : World) (out : result json * World),
    wait_loop fuel self receipt_id max_wait start_time w = Some out ->
    (sent w <= sent (snd out))%nat
    /\ 2 * (Z.of_nat (sent (snd out)) - Z.of_nat (sent w))
       <= Z.max 0 (max_wait - (clock w - start_time)) + 1.
Proof.
  induction fuel as [| fuel IH]; intros w out Hrun; [discriminate |].
  cbn [wait_loop] in Hrun.
  destruct (clock w - start_time <? max_wait) eqn:Hcond.
  - apply Z.ltb_lt in Hcond.
    pose proof (check_status_world self receipt_id w) as Hw.
    destruct (check_status self receipt_id w) as [[[receipt status] | e] w1];
      cbn [snd] in Hw; subst w1.
    + destruct (Py.eq_str status "complete");
        [injection Hrun as <-; cbn [snd sent exchanged]; lia |].
      destruct (Py.eq_str status "failed");
        [injection Hrun as <-; cbn [snd sent exchanged]; lia |].
      apply IH in Hrun.
      cbn [snd fst time_sleep sent clock exchanged] in Hrun. lia.
    + injection Hrun as <-. cbn [snd sent exchanged]. lia.
  - apply Z.ltb_ge in Hcond. injection Hrun as <-. cbn [snd]. lia.
Qed.

(** X11: whatever the remote answers, [wait_for_processing] ends, having
    sent at most [(max_wait + 1) / 2] status checks (15 for the default
    max-wait of 30), since a 2-second sleep follows every check that does
    not end the call. *)
Theorem poll_request_bound (self : Client) (receipt_id : string)
  (max_wait : Z) (w : World) :
  exists out,
    wait_for_processing self receipt_id max_wait w = Some out
    /\ (sent w <= sent (snd out))%nat
    /\ 2 * (Z.of_nat (sent (snd out)) - Z.of_nat (sent w))
       <= Z.max 0 max_wait + 1.
Proof.
  unfold wait_for_processing, wait_rounds.
  destruct (wait_loop_ends self receipt_id max_wait (clock w)
              (Z.to_nat max_wait) w ltac:(lia)) as [out Hout].
  exists out. split; [exact Hout |].
  destruct (wait_loop_sent_bound _ _ _ _ _ _ _ Hout) as [Hle Hbound].
  split; [exact Hle |]. replace (max_wait - (clock w - clock w)) with max_wait
    in Hbound by lia. exact Hbound.
Qed.

(** [k] rounds that find the receipt pending, when the bound is not reached
    before the round after them. *)
Lemma wait_loop_skip_pending (self : Client) (receipt_id : string)
  (max_wait start_time : Z) (k : nat) :
  forall (fuel : nat) (w : World),
    (forall j, (j < k)%nat ->
               reports_pending (reply (remote w (sent w + j))) = true) ->
    clock w - start_time + rounds_time (remote w) (sent w) k < max_wait ->
    wait_loop (k + fuel) self receipt_id max_wait start_time w
    = wait_loop fuel self receipt_id max_wait start_time
                (polled self receipt_id k w).
Proof.
  induction k as [| k IH]; intros fuel w Hpending Htime; [reflexivity |].
  pose proof (rounds_time_lower (remote w) (S k) (sent w)) as Hlow.
  cbn [Nat.add]. rewrite wait_loop_pending;
    [| lia | unfold next_reply; rewrite <- (Nat.add_0_r (sent w));
             apply Hpending; lia].
  cbn [polled]. apply IH.
  - intros j Hj. cbn [remote sent slept exchanged].
    replace (S (sent w) + j)%nat with (sent w + S j)%nat by lia.
    apply Hpending. lia.
  - cbn [remote sent clock slept exchanged].
    cbn [rounds_time] in Htime. lia.
Qed.

Lemma wait_loop_check_raises (self : Client) (receipt_id : string)
  (max_wait start_time : Z) (fuel : nat) (w w1 : World) (e : exn) :
  clock w - start_time < max_wait ->
  check_status self receipt_id w = (Raise e, w1) ->
  wait_loop (S fuel) self receipt_id max_wait start_time w
  = Some (Raise e, w1).
Proof.
  intros Ht Hcheck. cbn [wait_loop].
  replace (clock w - start_time <? max_wait) with true
    by (symmetry; apply Z.ltb_lt; exact Ht).
  rewrite Hcheck. reflexivity.
Qed.

Lemma sleeps_polled (self : Client) (receipt_id : string) (k : nat) :
  forall w : World,
    sleeps (log (polled self receipt_id k w))
    = (sleeps (log w) ++ repeat 2 k)%list.
Proof.
  induction k as [| k IH]; intros w; cbn [polled repeat].
  - rewrite app_nil_r. reflexivity.
  - rewrite IH. cbn [slept exchanged log]. rewrite !sleeps_app. cbn [sleeps].
    rewrite <- !app_assoc. reflexivity.
Qed.

(** What the preconditions of the three theorems below give: the clock,
    remote and request count after [k] pending rounds, and enough rounds
    left. *)
Lemma pending_rounds_fit (self : Client) (receipt_id : string)
  (max_wait : Z) (w : World) (k : nat) :
  rounds_time (remote w) (sent w) k < max_wait ->
  wait_rounds max_wait = (k + S (Z.to_nat max_wait - k))%nat
  /\ clock (polled self receipt_id k w) - clock w < max_wait
  /\ remote (polled self receipt_id k w) = remote w
  /\ sent (polled self receipt_id k w) = (sent w + k)%nat.
Proof.
  intros Htime.
  pose proof (rounds_time_lower (remote w) k (sent w)) as Hlow.
  destruct (polled_facts self receipt_id k w) as (Hr & Hs & Hc).
  unfold wait_rounds. repeat split; [lia | lia | exact Hr | exact Hs].
Qed.

(** X12: when the status checks report pending [k] times and the next
    check fails with an API error (a transport failure, or any non-success
    response, 429 included), [wait_for_processing] raises that error right
    after that check: polling does not retry. *)
Theorem poll_propagates_api_error (self : Client) (receipt_id : string)
  (max_wait : Z) (w : World) (k : nat) (e : MataresitAPIError) :
  (forall j, (j < k)%nat ->
             reports_pending (reply (remote w (sent w + j))) = true) ->
  api_failure (reply (remote w (sent w + k))) = Some e ->
  rounds_time (remote w) (sent w) k < max_wait ->
  wait_for_processing self receipt_id max_wait w
  = Some (Raise (APIError e),
          exchanged (poll_request self receipt_id) (polled self receipt_id k w))
  /\ sent (exchanged (poll_request self receipt_id) (polled self receipt_id k w))
     = S (sent w + k).
Proof.
  intros Hpending Hfail Htime.
  destruct (pending_rounds_fit self receipt_id max_wait w k Htime)
    as (Hfuel & Hclock & Hremote & Hsent).
  split; [| cbn; rewrite Hsent; reflexivity].
  unfold wait_for_processing. rewrite Hfuel.
  rewrite wait_loop_skip_pending by (first [exact Hpending | lia]).
  apply wait_loop_check_raises; [exact Hclock |].
  unfold check_status, get_receipt, bind.
  rewrite (request_api_failure self "GET" ("/receipts/" ++ receipt_id) NoKwargs
             (polled self receipt_id k w) e);
    [reflexivity | unfold next_reply; rewrite Hremote, Hsent; exact Hfail].
Qed.

Lemma poll_propagates_api_error_witness :
  wait_for_processing demo_client "r1" 30
    (fresh_world (scripted 1 [status_reply "pending"]
                    (Response 429 (Parsed (JObj [])))))
  = Some (Raise (APIError (http_error 429 [])),
          exchanged (poll_request demo_client "r1")
            (polled demo_client "r1" 1
               (fresh_world (scripted 1 [status_reply "pending"]
                               (Response 429 (Parsed (JObj [])))))))
  /\ sent (exchanged (poll_request demo_client "r1")
             (polled demo_client "r1" 1
                (fresh_world (scripted 1 [status_reply "pending"]
                                (Response 429 (Parsed (JObj [])))))))
     = 2%nat.
Proof.
  apply (poll_propagates_api_error demo_client "r1" 30
           (fresh_world (scripted 1 [status_reply "pending"]
                           (Response 429 (Parsed (JObj []))))) 1).
  - intros j Hj. destruct j as [| j]; [reflexivity | lia].
  - reflexivity.
  - reflexivity.
Defined.

(** X13: when the status checks report pending [k] times and then
    complete (and the max-wait bound is not reached before that check),
    [wait_for_processing] returns the body of the check that reported
    complete, after [k + 1] checks and exactly [k] sleeps of 2 seconds. *)
Theorem poll_returns_after_pending_rounds (self : Client)
  (receipt_id : string) (max_wait : Z) (w : World) (k : nat) (receipt : json) :
  (forall j, (j < k)%nat ->
             reports_pending (reply (remote w (sent w + j))) = true) ->
  reports_complete (reply (remote w (sent w + k))) = true ->
  payload (reply (remote w (sent w + k))) = Some receipt ->
  rounds_time (remote w) (sent w) k < max_wait ->
  wait_for_processing self receipt_id max_wait w
  = Some (Ok receipt,
          exchanged (poll_request self receipt_id) (polled self receipt_id k w))
  /\ sent (exchanged (poll_request self receipt_id) (polled self receipt_id k w))
     = S (sent w + k)
  /\ sleeps (log (exchanged (poll_request self receipt_id)
                            (polled self receipt_id k w)))
     = (sleeps (log w) ++ repeat 2 k)%list.
Proof.
  intros Hpending Hcomplete Hbody Htime.
  destruct (pending_rounds_fit self receipt_id max_wait w k Htime)
    as (Hfuel & Hclock & Hremote & Hsent).
  split; [| split].
  - unfold wait_for_processing. rewrite Hfuel.
    rewrite wait_loop_skip_pending by (first [exact Hpending | lia]).
    apply wait_loop_complete; [exact Hclock | |];
      unfold next_reply; rewrite Hremote, Hsent; assumption.
  - cbn. rewrite Hsent. reflexivity.
  - cbn [exchanged log]. rewrite sleeps_app, sleeps_polled. cbn [sleeps].
    rewrite app_nil_r. reflexivity.
Qed.

Lemma poll_returns_after_pending_rounds_witness :
  wait_for_processing demo_client "r1" 30
    (fresh_world (scripted 1 [status_reply "pending"; status_reply "pending";
                              status_reply "pending"]
                    (status_reply "complete")))
  = Some (Ok (JObj [("success", JBool true);
                    ("data", JObj [("id", JStr "r1");
                                   ("processingStatus", JStr "complete")])]),
          exchanged (poll_request demo_client "r1")
            (polled demo_client "r1" 3
               (fresh_world (scripted 1 [status_reply "pending";
                                         status_reply "pending";
                                         status_reply "pending"]
                               (status_reply "complete")))))
  /\ sent (exchanged (poll_request demo_client "r1")
             (polled demo_client "r1" 3
                (fresh_world (scripted 1 [status_reply "pending";
                                          status_reply "pending";
                                          status_reply "pending"]
                                (status_reply "complete")))))
     = 4%nat
  /\ sleeps (log (exchanged (poll_request demo_client "r1")
                    (polled demo_client "r1" 3
                       (fresh_world (scripted 1 [status_reply "pending";
                                                 status_reply "pending";
                                                 status_reply "pending"]
                                       (status_reply "complete"))))))
     = [2; 2; 2].
Proof.
  apply (poll_returns_after_pending_rounds demo_client "r1" 30
           (fresh_world (scripted 1 [status_reply "pending";
                                     status_reply "pending";
                                     status_reply "pending"]
                           (status_reply "complete"))) 3).
  - intros j Hj. destruct j as [| [| [| j]]]; try reflexivity. lia.
  - reflexivity.
  - reflexivity.
  - reflexivity.
Defined.

(** X14: a successful status reply whose body has no [data] key ends
    [wait_for_processing] with [KeyError] right after that check, while a
    body whose [data] has no [processingStatus] counts as pending. *)
Theorem poll_missing_keys (self : Client) (receipt_id : string)
  (max_wait : Z) (w : World) (k : nat) (status : Z)
  (fields : list (string * json)) :
  (forall j, (j < k)%nat ->
             reports_pending (reply (remote w (sent w + j))) = true) ->
  reply (remote w (sent w + k)) = Response status (Parsed (JObj fields)) ->
  ok status = true ->
  rounds_time (remote w) (sent w) k < max_wait ->
  (Py.lookup "data" fields = None ->
   wait_for_processing self receipt_id max_wait w
   = Some (Raise (Builtin "KeyError"),
           exchanged (poll_request self receipt_id)
                     (polled self receipt_id k w)))
  /\ (forall data,
         Py.lookup "data" fields = Some (JObj data) ->
         Py.lookup "processingStatus" data = None ->
         reports_pending (reply (remote w (sent w + k))) = true).
Proof.
  intros Hpending Hreply Hok Htime. split.
  - intros Hdata.
    destruct (pending_rounds_fit self receipt_id max_wait w k Htime)
      as (Hfuel & Hclock & Hremote & Hsent).
    unfold wait_for_processing. rewrite Hfuel.
    rewrite wait_loop_skip_pending by (first [exact Hpending | lia]).
    apply wait_loop_check_raises; [exact Hclock |].
    assert (Hnext : next_reply (polled self receipt_id k w)
                    = Response status (Parsed (JObj fields)))
      by (unfold next_reply; rewrite Hremote, Hsent; exact Hreply).
    unfold check_status, get_receipt, bind.
    rewrite (request_success _ _ _ _ _ _ _ Hnext Hok).
    unfold lift, getitem. rewrite Hdata. reflexivity.
  - intros data Hdata Hstatus. rewrite Hreply.
    unfold reports_pending, reported_status, field_or.
    rewrite Hok, Hdata, Hstatus. reflexivity.
Qed.

Lemma poll_missing_keys_witness :
  wait_for_processing demo_client "r1" 30
    (fresh_world (scripted 0 [] (Response 200 (Parsed (JObj [("success", JBool true)])))))
  = Some (Raise (Builtin "KeyError"),
          exchanged (poll_request demo_client "r1")
            (polled demo_client "r1" 0
               (fresh_world (scripted 0 []
                  (Response 200 (Parsed (JObj [("success", JBool true)])))))))
  /\ reports_pending
       (reply (scripted 0 [] (Response 200 (Parsed (JObj [("data", JObj [])]))) 0%nat))
     = true.
Proof.
  split.
  - apply (proj1 (poll_missing_keys demo_client "r1" 30
                    (fresh_world (scripted 0 []
                       (Response 200 (Parsed (JObj [("success", JBool true)])))))
                    0 200 [("success", JBool true)]
                    ltac:(intros j Hj; lia) eq_refl eq_refl eq_refl)).
    reflexivity.
  - apply (proj2 (poll_missing_keys demo_client "r1" 30
                    (fresh_world (scripted 0 []
                       (Response 200 (Parsed (JObj [("data", JObj [])])))))
                    0 200 [("data", JObj [])]
                    ltac:(intros j Hj; lia) eq_refl eq_refl eq_refl)
             []); reflexivity.
Defined.

(** ** Chunked upload: chunks and edge sizes *)







(** X16: the edge sizes of [bulk_upload_with_progress]. A batch size of 0
    raises [ValueError] before any request; a negative batch size uploads
    nothing and still returns a summary, with the number of receipts as
    total and no success and no failure; an empty list returns the all-zero
    summary without a request. *)
Theorem upload_edge_sizes (self : Client) (receipts : list Receipt)
  (batch_size : Z) (w : World) :
  (batch_size = 0 ->
   bulk_upload_with_progress self receipts batch_size w
   = (Raise (Builtin "ValueError"), w))
  /\ (batch_size < 0 ->
      bulk_upload_with_progress self receipts batch_size w
      = (Ok (mkSummary (Z.of_nat (List.length receipts)) 0 0 [] []), w))
  /\ (receipts = [] ->
      batch_size <> 0 ->
      bulk_upload_with_progress self receipts batch_size w
      = (Ok (mkSummary 0 0 0 [] []), w)).
Proof.
  unfold bulk_upload_with_progress, bind, lift, chunk_offsets.
  split; [| split].
  - intros ->. reflexivity.
  - intros Hneg.
    replace (batch_size =? 0) with false by (symmetry; apply Z.eqb_neq; lia).
    replace (batch_size <? 0) with true by (symmetry; apply Z.ltb_lt; lia).
    reflexivity.
  - intros -> Hnz.
    replace (batch_size =? 0) with false by (symmetry; apply Z.eqb_neq; lia).
    destruct (batch_size <? 0) eqn:Hneg; [reflexivity |].
    apply Z.ltb_ge in Hneg. unfold Py.range_step. cbn [List.length Z.of_nat].
    replace ((0 - 0 + batch_size - 1) / batch_size) with 0
      by (symmetry; apply Z.div_small; lia).
    reflexivity.
Qed.

Lemma upload_edge_sizes_witness :
  bulk_upload_with_progress demo_client (repeat sample_receipt 11) 0
    (fresh_world always_429)
  = (Raise (Builtin "ValueError"), fresh_world always_429)
  /\ bulk_upload_with_progress demo_client (repeat sample_receipt 11) (-5)
       (fresh_world always_429)
     = (Ok (mkSummary 11 0 0 [] []), fresh_world always_429)
  /\ bulk_upload_with_progress demo_client [] 10 (fresh_world always_429)
     = (Ok (mkSummary 0 0 0 [] []), fresh_world always_429).
Proof.
  split; [| split].
  - apply (proj1 (upload_edge_sizes demo_client (repeat sample_receipt 11) 0
                    (fresh_world always_429))).
    reflexivity.
  - apply (proj1 (proj2 (upload_edge_sizes demo_client
                           (repeat sample_receipt 11) (-5)
                           (fresh_world always_429)))).
    lia.
  - apply (proj2 (proj2 (upload_edge_sizes demo_client [] 10
                           (fresh_world always_429)))).
    + reflexivity.
    + lia.
Defined.

(** ** Chunked upload: failures *)

Lemma flat_map_all_nil {A B : Type} (f : A -> list B) (l : list A) :
  (forall x, In x l -> f x = []) -> flat_map f l = [].
Proof.
  induction l as [| x l IH]; intros H; cbn; [reflexivity |].
  rewrite (H x (or_introl eq_refl)), IH; [reflexivity |].
  intros y Hy. apply H. right. exact Hy.
Qed.

Lemma flat_map_singletons {A B : Type} (f : A -> list B) (g : A -> B)
  (l : list A) :
  (forall x, In x l -> f x = [g x]) -> flat_map f l = map g l.
Proof.
  induction l as [| x l IH]; intros H; cbn; [reflexivity |].
  rewrite (H x (or_introl eq_refl)), IH; [reflexivity |].
  intros y Hy. apply H. right. exact Hy.
Qed.

(** X17: when the upload of every chunk fails with an API error, the
    operation still returns: no success, and one failure entry per chunk,
    numbered from 1, so that [failed] counts chunks, not receipts. *)
Theorem upload_all_chunks_fail (self : Client) (receipts : list Receipt)
  (batch_size : Z) (w : World) (err : nat -> MataresitAPIError) :
  0 < batch_size ->
  (forall j,
      (j < chunk_count (Z.of_nat (List.length receipts)) batch_size)%nat ->
      api_failure (reply (remote w (sent w + j))) = Some (err j)) ->
  exists w',
    bulk_upload_with_progress self receipts batch_size w
    = (Ok (mkSummary
             (Z.of_nat (List.length receipts)) 0
             (Z.of_nat (chunk_count (Z.of_nat (List.length receipts))
                                    batch_size))
             []
             (map (fun j => failure_entry (err j) (Z.of_nat j + 1))
                  (seq 0 (chunk_count (Z.of_nat (List.length receipts))
                                      batch_size)))),
       w')
    /\ sent w'
       = (sent w + chunk_count (Z.of_nat (List.length receipts)) batch_size)%nat.
Proof.
  intros Hb Hfail.
  set (count := chunk_count (Z.of_nat (List.length receipts)) batch_size) in *.
  assert (Hall : forall j, (j < count)%nat ->
                           handled (reply (remote w (sent w + j))) = true).
  { intros j Hj. unfold handled, chunk_lists. rewrite (Hfail j Hj). reflexivity. }
  destruct (bulk_upload_run self receipts batch_size w Hb Hall)
    as (w' & Hrun & Hsent & _).
  fold count in Hrun, Hsent.
  assert (Hcreated : flat_map (chunk_created w) (seq 0 count) = []).
  { apply flat_map_all_nil. intros j Hj. apply in_seq in Hj.
    unfold chunk_created, chunk_lists. rewrite (Hfail j) by lia. reflexivity. }
  assert (Hfailed : flat_map (chunk_failed w) (seq 0 count)
                    = map (fun j => failure_entry (err j) (Z.of_nat j + 1))
                          (seq 0 count)).
  { apply flat_map_singletons. intros j Hj. apply in_seq in Hj.
    unfold chunk_failed, chunk_lists. rewrite (Hfail j) by lia. reflexivity. }
  rewrite Hcreated, Hfailed in Hrun.
  rewrite length_map, length_seq in Hrun.
  exists w'. split; [exact Hrun | exact Hsent].
Qed.

Lemma upload_all_chunks_fail_witness :
  exists w',
    bulk_upload_with_progress demo_client (repeat sample_receipt 11) 5
      (fresh_world (scripted 0 [] (RequestException "connection refused")))
    = (Ok (mkSummary 11 0 3 []
             [failure_entry (transport_error "connection refused") 1;
              failure_entry (transport_error "connection refused") 2;
              failure_entry (transport_error "connection refused") 3]),
       w')
    /\ sent w' = 3%nat.
Proof.
  apply (upload_all_chunks_fail demo_client (repeat sample_receipt 11) 5
           (fresh_world (scripted 0 [] (RequestException "connection refused")))
           (fun _ => transport_error "connection refused")).
  - reflexivity.
  - intros j Hj. unfold scripted; cbn.
    destruct j as [| j]; [reflexivity | destruct j; reflexivity].
Defined.

Lemma upload_loop_app (self : Client) (receipts : list Receipt)
  (batch_size : Z) (l1 l2 : list Z) :
  forall (lists : list json * list json) (w : World),
    upload_loop self receipts batch_size (l1 ++ l2) lists w
    = match upload_loop self receipts batch_size l1 lists w with
      | (Ok lists', w') => upload_loop self receipts batch_size l2 lists' w'
      | (Raise e, w') => (Raise e, w')
      end.
Proof.
  induction l1 as [| i l1 IH]; intros lists w; [reflexivity |].
  cbn [app upload_loop]. unfold bind.
  destruct (upload_chunk self receipts batch_size lists i w) as [[lists' | e] w1];
    [apply IH | reflexivity].
Qed.

(** The first [n] rounds of the upload loop, when the replies to them are
    ones the loop body copes with. *)
Lemma upload_loop_prefix (self : Client) (receipts : list Receipt)
  (batch_size : Z) (w0 : World) :
  0 < batch_size ->
  forall (n a : nat) (w : World) (lists : list json * list json),
    (forall j, (a <= j < a + n)%nat ->
               handled (reply (remote w0 (sent w0 + j))) = true) ->
    remote w = remote w0 ->
    sent w = (sent w0 + a)%nat ->
    exists lists' w',
      upload_loop self receipts batch_size
                  (map (fun j => Z.of_nat j * batch_size) (seq a n)) lists w
      = (Ok lists', w')
      /\ remote w' = remote w0
      /\ sent w' = (sent w0 + a + n)%nat.
Proof.
  intros Hb. induction n as [| n IH]; intros a w lists Hall Hremote Hsent.
  - exists lists, w. cbn. repeat split; [exact Hremote | lia].
  - destruct (handled_lists _ (Z.of_nat a + 1) (Hall a ltac:(lia)))
      as (cs & es & Hlists).
    assert (Hnext : chunk_lists (Z.of_nat a + 1) (next_reply w) = Some (cs, es))
      by (unfold next_reply; rewrite Hremote, Hsent; exact Hlists).
    destruct lists as [successful failed].
    cbn [seq map upload_loop]. unfold bind at 1.
    rewrite (upload_chunk_run _ _ _ _ _ _ _ _ _ Hb Hnext).
    match goal with
    | |- context [paused ?pause (exchanged ?r w)] =>
        destruct (paused_facts pause r w) as (Hr & Hs & _);
        destruct (IH (S a) (paused pause (exchanged r w))
                     ((successful ++ cs)%list, (failed ++ es)%list))
          as (lists' & w' & Hrun & Hremote' & Hsent');
        [intros j Hj; apply Hall; lia | congruence | lia |]
    end.
    exists lists', w'. rewrite Hrun.
    repeat split; [exact Hremote' | lia].
Qed.

Lemma getitem_raises_builtin (x : json) (key : string) (e : exn) :
  getitem x key = Raise e -> exists cls, e = Builtin cls.
Proof.
  destruct x; cbn; try (intros [= <-]; eauto).
  destruct (Py.lookup key fields); [discriminate | intros [= <-]; eauto].
Qed.

Lemma iterate_raises_builtin (x : json) (e : exn) :
  iterate x = Raise e -> exists cls, e = Builtin cls.
Proof.
  destruct x; cbn; try discriminate; intros [= <-]; eauto.
Qed.

(** One round of the upload loop on a reply it does not cope with: the
    exception is a builtin one and leaves the loop. *)
Lemma upload_chunk_abort (self : Client) (receipts : list Receipt)
  (batch_size : Z) (lists : list json * list json) (j : nat) (w : World) :
  chunk_lists (Z.of_nat j + 1) (next_reply w) = None ->
  exists cls,
    upload_chunk self receipts batch_size lists (Z.of_nat j * batch_size) w
    = (Raise (Builtin cls),
       exchanged (batch_request self (chunk receipts batch_size j)) w).
Proof.
  intros Hlists. unfold upload_chunk. destruct lists as [successful failed].
  unfold bind at 1. unfold try_except, create_receipts_batch.
  fold (chunk receipts batch_size j).
  unfold chunk_lists in Hlists.
  destruct (api_failure (next_reply w)) as [e |] eqn:Hfail; [discriminate |].
  destruct (next_reply w) as [why | status [body | why]] eqn:Hreply;
    try discriminate.
  destruct (ok status) eqn:Hok.
  - unfold bind at 1. rewrite (request_success _ _ _ _ _ _ _ Hreply Hok).
    cbn in Hlists. rewrite Hok in Hlists.
    unfold batch_items, bind, lift, ret.
    destruct (getitem body "data") as [data | e] eqn:Hdata;
      [| destruct (getitem_raises_builtin _ _ _ Hdata) as [cls ->]; eauto].
    destruct (getitem data "created") as [created | e] eqn:Hc;
      [| destruct (getitem_raises_builtin _ _ _ Hc) as [cls ->]; eauto].
    destruct (iterate created) as [cs | e] eqn:Hcs;
      [| destruct (iterate_raises_builtin _ _ Hcs) as [cls ->]; eauto].
    destruct (getitem data "errors") as [errors | e] eqn:He;
      [| destruct (getitem_raises_builtin _ _ _ He) as [cls ->]; eauto].
    destruct (iterate errors) as [es | e] eqn:Hes;
      [discriminate
      | destruct (iterate_raises_builtin _ _ Hes) as [cls ->]; eauto].
  - exists "AttributeError". unfold bind at 1.
    pose proof (request_world self "POST" "/receipts/batch"
                  (Json (JObj [("receipts",
                                JArr (map (fun receipt => JObj (receipt_dict receipt))
                                          (chunk receipts batch_size j)))])) w)
      as Hw.
    unfold next_reply in Hreply.
    unfold _request, bind, session_request in *; cbn in *.
    rewrite Hreply in *. rewrite Hok in *. cbn in *.
    destruct body; try reflexivity. discriminate.
Qed.

(** X18: a reply the loop body does not cope with (a success whose body
    lacks an iterable [data.created] or [data.errors], or a non-success
    whose JSON body is not an object) aborts the whole upload with a
    builtin exception right after that chunk's request: the chunks after it
    are not uploaded and no summary is returned. *)
Theorem upload_aborts_on_malformed_reply (self : Client)
  (receipts : list Receipt) (batch_size : Z) (w : World) (j : nat) :
  0 < batch_size ->
  (j < chunk_count (Z.of_nat (List.length receipts)) batch_size)%nat ->
  (forall i, (i < j)%nat ->
             handled (reply (remote w (sent w + i))) = true) ->
  handled (reply (remote w (sent w + j))) = false ->
  exists cls w',
    bulk_upload_with_progress self receipts batch_size w
    = (Raise (Builtin cls), w')
    /\ sent w' = S (sent w + j).
Proof.
  intros Hb Hj Hbefore Hbad.
  set (count := chunk_count (Z.of_nat (List.length receipts)) batch_size) in *.
  assert (Hseq : seq 0 count = (seq 0 j ++ j :: seq (S j) (count - S j))%list).
  { replace count with (j + S (count - S j))%nat at 1 by lia.
    rewrite seq_app. reflexivity. }
  assert (Hnone : chunk_lists (Z.of_nat j + 1) (reply (remote w (sent w + j)))
                  = None).
  { unfold handled, chunk_lists in *.
    destruct (api_failure (reply (remote w (sent w + j)))); [discriminate |].
    destruct (batch_lists (reply (remote w (sent w + j))));
      [discriminate | reflexivity]. }
  destruct (upload_loop_prefix self receipts batch_size w Hb j 0 w ([], [])
              ltac:(intros i Hi; apply Hbefore; lia) eq_refl ltac:(lia))
    as (lists' & w1 & Hrun & Hremote & Hsent).
  assert (Hnext : chunk_lists (Z.of_nat j + 1) (next_reply w1) = None).
  { unfold next_reply. rewrite Hremote, Hsent.
    replace (sent w + 0 + j)%nat with (sent w + j)%nat by lia. exact Hnone. }
  destruct (upload_chunk_abort self receipts batch_size lists' j w1 Hnext)
    as [cls Habort].
  exists cls, (exchanged (batch_request self (chunk receipts batch_size j)) w1).
  split; [| cbn; lia].
  unfold bulk_upload_with_progress, bind, lift.
  rewrite (chunk_offsets_positive _ _ Hb). fold count.
  rewrite Hseq, map_app, upload_loop_app, Hrun.
  cbn [map upload_loop]. unfold bind. rewrite Habort. reflexivity.
Qed.

Lemma upload_aborts_on_malformed_reply_witness :
  exists cls w',
    bulk_upload_with_progress demo_client (repeat sample_receipt 11) 5
      (fresh_world (scripted 0 [batch_reply [JStr "a"] []]
                      (Response 200 (Parsed (JObj [("success", JBool true)])))))
    = (Raise (Builtin cls), w')
    /\ sent w' = 2%nat.
Proof.
  apply (upload_aborts_on_malformed_reply demo_client
           (repeat sample_receipt 11) 5
           (fresh_world (scripted 0 [batch_reply [JStr "a"] []]
                           (Response 200 (Parsed (JObj [("success", JBool true)])))))
           1).
  - reflexivity.
  - vm_compute. lia.
  - intros i Hi. destruct i as [| i]; [reflexivity | lia].
  - reflexivity.
Defined.

(** ** Upload and wait *)

(** X19: [upload_receipt_with_processing] on a successful create reply
    whose body is an object with an object under [data]. Without an [id] in
    it the call raises [KeyError] after the create request, whether or not
    it was asked to wait; with a string [id] it returns the create body
    when not asked to wait, and otherwise is [wait_for_processing] for that
    id with a max-wait of 30, started after the create request. *)
Theorem upload_then_wait (str_of : json -> string) (self : Client)
  (receipt : Receipt) (w : World) (status : Z)
  (fields data : list (string * json)) :
  (forall s, str_of (JStr s) = s) ->
  next_reply w = Response status (Parsed (JObj fields)) ->
  ok status = true ->
  Py.lookup "data" fields = Some (JObj data) ->
  (Py.lookup "id" data = None ->
   forall wait,
     upload_receipt_with_processing str_of self receipt wait w
     = Some (Raise (Builtin "KeyError"),
             exchanged (create_request self receipt) w))
  /\ (forall receipt_id,
         Py.lookup "id" data = Some (JStr receipt_id) ->
         upload_receipt_with_processing str_of self receipt false w
         = Some (Ok (JObj fields), exchanged (create_request self receipt) w)
         /\ upload_receipt_with_processing str_of self receipt true w
            = wait_for_processing self receipt_id 30
                (exchanged (create_request self receipt) w)).
Proof.
  intros Hstr Hreply Hok Hdata.
  unfold upload_receipt_with_processing, create_receipt.
  rewrite (request_success _ _ _ _ _ _ _ Hreply Hok).
  unfold getitem. rewrite Hdata. split.
  - intros Hid wait. rewrite Hid. reflexivity.
  - intros receipt_id Hid. rewrite Hid, Hstr. split; reflexivity.
Qed.

Lemma upload_then_wait_witness :
  upload_receipt_with_processing str_of_string demo_client sample_receipt false
    (fresh_world (scripted 1 [created_reply] (status_reply "complete")))
  = Some (Ok (JObj [("success", JBool true); ("data", JObj [("id", JStr "r1")])]),
          exchanged (create_request demo_client sample_receipt)
            (fresh_world (scripted 1 [created_reply] (status_reply "complete"))))
  /\ upload_receipt_with_processing str_of_string demo_client sample_receipt true
       (fresh_world (scripted 1 [created_reply] (status_reply "complete")))
     = wait_for_processing demo_client "r1" 30
         (exchanged (create_request demo_client sample_receipt)
            (fresh_world (scripted 1 [created_reply] (status_reply "complete")))).
Proof.
  apply (proj2 (upload_then_wait str_of_string demo_client sample_receipt
                  (fresh_world (scripted 1 [created_reply] (status_reply "complete")))
                  201 [("success", JBool true); ("data", JObj [("id", JStr "r1")])]
                  [("id", JStr "r1")]
                  ltac:(intros s; reflexivity) eq_refl eq_refl eq_refl)
          "r1").
  reflexivity.
Defined.

(** ** Operations and retries *)

(** X20: every client operation sends exactly one request and never
    sleeps, whatever the reply: no operation goes through the retry
    wrapper, so a rate-limit reply is not retried. *)
Theorem operations_never_retry (self : Client) (op : Operation) (w : World) :
  sent (snd (call self op w)) = S (sent w)
  /\ sleeps (log (snd (call self op w))) = sleeps (log w)
  /\ (forall fields,
         next_reply w = Response 429 (Parsed (JObj fields)) ->
         fst (call self op w) = Raise (APIError (http_error 429 fields))).
Proof.
  destruct (call_is_request self op) as (method & endpoint & kwargs & ->).
  rewrite request_world. split; [reflexivity |]. split.
  - cbn [exchanged log]. rewrite sleeps_app. cbn [sleeps].
    apply app_nil_r.
  - intros fields Hreply.
    rewrite (request_rate_limited _ _ _ _ _ _ Hreply). reflexivity.
Qed.

Lemma operations_never_retry_witness :
  fst (call demo_client (GetReceipt "r1") (fresh_world always_429))
  = Raise (APIError (http_error 429 [("message", JStr "Too many requests")])).
Proof.
  destruct (operations_never_retry demo_client (GetReceipt "r1")
              (fresh_world always_429)) as (_ & _ & Hlimited).
  apply Hlimited. reflexivity.
Defined.
